(** * Mezopotamya.Travel backend: a shallow embedding of [main.py]

    The development follows the layout of [mezopotamya-backend/main.py]:
    Python values first (strings as sequences of code points, exceptions as
    a result type), then the relational state kept in SQLite, the three
    collaborators that [main.py] imports ([DocumentProcessor],
    [VectorStore], [RAGService]) as interfaces, and finally the endpoint
    functions themselves, each written in a small state-and-exception monad
    over the world the request runs in. *)

From Stdlib Require Import ZArith NArith List Bool Lia String Ascii.
From Stdlib Require Import DecimalString DecimalZ DecimalPos DecimalFacts.
From Stdlib Require Import QArith Sorted.
Import ListNotations.

Local Open Scope Z_scope.

(* ================================================================== *)
(** * Python strings *)
(* ================================================================== *)

Module PyStr.

(** A Python [str] is a sequence of Unicode code points. *)
Definition char := N.
Definition str := list char.

(** ** Source literals

    The literals of [main.py] are UTF-8 text.  They are written here as
    Rocq string literals (which hold the UTF-8 bytes) and decoded to code
    points by [py]. *)

Definition cont (b : N) : N := N.land b 63.

Fixpoint utf8_decode (fuel : nat) (bs : list N) : str :=
  match fuel with
  | O => []
  | S fuel' =>
      match bs with
      | [] => []
      | b0 :: r0 =>
          if (b0 <? 128)%N then b0 :: utf8_decode fuel' r0
          else if (b0 <? 224)%N then
            match r0 with
            | b1 :: r1 =>
                (N.shiftl (N.land b0 31) 6 + cont b1)%N :: utf8_decode fuel' r1
            | _ => []
            end
          else if (b0 <? 240)%N then
            match r0 with
            | b1 :: b2 :: r2 =>
                (N.shiftl (N.land b0 15) 12 + N.shiftl (cont b1) 6 + cont b2)%N
                  :: utf8_decode fuel' r2
            | _ => []
            end
          else
            match r0 with
            | b1 :: b2 :: b3 :: r3 =>
                (N.shiftl (N.land b0 7) 18 + N.shiftl (cont b1) 12
                 + N.shiftl (cont b2) 6 + cont b3)%N :: utf8_decode fuel' r3
            | _ => []
            end
      end
  end.

Definition py (s : string) : str :=
  let bs := map N_of_ascii (list_ascii_of_string s) in
  utf8_decode (List.length bs) bs.
Arguments py : simpl never.

(** ** [sub in s] *)

Fixpoint starts_with (p s : str) : bool :=
  match p, s with
  | [], _ => true
  | _ :: _, [] => false
  | a :: p', b :: s' => (a =? b)%N && starts_with p' s'
  end.

(** Python's [sub in s]: some position of [s] starts an occurrence. *)
Fixpoint contains (sub s : str) : bool :=
  starts_with sub s ||
  match s with
  | [] => false
  | _ :: s' => contains sub s'
  end.

(** The declarative reading of containment. *)
Definition substring (sub s : str) : Prop :=
  exists pre post, s = pre ++ sub ++ post.

(** ** [str(n)] and [f"{n}"] for an [int] *)

(** The code points of an ASCII text. *)
Definition codes (s : string) : str :=
  map N_of_ascii (list_ascii_of_string s).

Definition str_of_int (n : Z) : str :=
  codes (NilZero.string_of_int (Z.to_int n)).

(** The characters a decimal numeral is made of: digits and the sign. *)
Definition numeral_char (c : char) : Prop :=
  (48 <= c <= 57)%N \/ c = 45%N.

(** ** [sep.join(parts)] *)

Fixpoint join (sep : str) (parts : list str) : str :=
  match parts with
  | [] => []
  | [p] => p
  | p :: rest => p ++ sep ++ join sep rest
  end.

(** ** [s.split(sep)] for a one-character separator: the fields between
    the occurrences of [sep], empty fields included. *)

Fixpoint split_aux (sep : char) (cur : str) (s : str) : list str :=
  match s with
  | [] => [rev cur]
  | c :: s' =>
      if (c =? sep)%N then rev cur :: split_aux sep [] s'
      else split_aux sep (c :: cur) s'
  end.

Definition split (sep : char) (s : str) : list str := split_aux sep [] s.

(** ** [str.lower] on the Latin blocks

    Python's [str.lower] applies the Unicode lowercase mapping.  The
    endpoint code below takes the mapping as a parameter; [lower_latin] is
    the mapping itself on Basic Latin, Latin-1 Supplement and Latin
    Extended-A (code points below U+0180), where it is context-free, and
    leaves every other code point as it is.  It is used to evaluate the
    endpoints on Turkish and English text. *)

Definition lower_char (c : char) : str :=
  (if (65 <=? c) && (c <=? 90) then [c + 32]
   else if (192 <=? c) && (c <=? 222) && negb (c =? 215) then [c + 32]
   else if (c =? 304) then [105; 775]
   else if (c =? 376) then [255]
   else if ((256 <=? c) && (c <=? 311)) || ((330 <=? c) && (c <=? 375)) then
     if N.even c then [c + 1] else [c]
   else if ((313 <=? c) && (c <=? 328)) || ((377 <=? c) && (c <=? 382)) then
     if N.odd c then [c + 1] else [c]
   else [c])%N.

Definition lower_latin (s : str) : str := flat_map lower_char s.

(** [str.upper] on the same blocks, where it is context-free as well. *)
Definition upper_char (c : char) : str :=
  (if (97 <=? c) && (c <=? 122) then [c - 32]
   else if (c =? 181) then [924]
   else if (c =? 223) then [83; 83]
   else if (224 <=? c) && (c <=? 254) && negb (c =? 247) then [c - 32]
   else if (c =? 255) then [376]
   else if (c =? 305) then [73]
   else if (c =? 329) then [700; 78]
   else if (c =? 383) then [83]
   else if ((256 <=? c) && (c <=? 311)) || ((330 <=? c) && (c <=? 375)) then
     if N.odd c then [c - 1] else [c]
   else if ((313 <=? c) && (c <=? 328)) || ((377 <=? c) && (c <=? 382)) then
     if N.even c then [c - 1] else [c]
   else [c])%N.

Definition upper_latin (s : str) : str := flat_map upper_char s.

(** A text of the three blocks: every code point is below U+0180. *)
Definition latin (s : str) : Prop := Forall (fun c => (c < 384)%N) s.

End PyStr.

Import PyStr.

(* ================================================================== *)
(** * Exceptions, results and floats *)
(* ================================================================== *)

(** A raised Python exception, kept by the text [str(e)] gives for it. *)
Inductive exn : Type :=
| Exception (msg : str).

Definition str_of_exn (e : exn) : str :=
  match e with Exception msg => msg end.

(** The outcome of evaluating Python code that may raise. *)
Inductive result (A : Type) : Type :=
| Return (a : A)
| Raise (e : exn).
Arguments Return {A} a.
Arguments Raise {A} e.

(** [try: body  except Exception as e: handler(e)] (also the bare
    [except:]): the handler sees every exception of the body. *)
Definition try_except {A : Type} (body : result A) (handler : exn -> result A)
  : result A :=
  match body with
  | Return a => Return a
  | Raise e => handler e
  end.

(** [d[key]] on a dict that may lack the key. *)
Definition getitem {A : Type} (key : string) (field : option A) : result A :=
  match field with
  | Some a => Return a
  | None => Raise (Exception (py "'" ++ py key ++ py "'"))
  end.

(** What an endpoint hands to FastAPI: a body, or a raised
    [HTTPException(status_code, detail)]. *)
Inductive response (A : Type) : Type :=
| Ok (body : A)
| HTTPException (status_code : Z) (detail : str).
Arguments Ok {A} body.
Arguments HTTPException {A} status_code detail.

(** Python floats occur only as literals and as values passed through
    (ratings, similarity scores); they are read as rationals. *)
Definition float := Q.

Definition embedding := list float.

(* ================================================================== *)
(** * The relational state (SQLite, [init_db]) *)
(* ================================================================== *)

(** Rows hold the columns the code writes or reads; [timestamp] and
    [created_at], which SQLite fills from their defaults, are left out. *)

Record destination_row := {
  dest_id : Z;
  dest_name : str;
  dest_description : option str;
  dest_category : option str;
  dest_location : option str;
  dest_rating : option float;
  dest_image_url : option str;
  dest_tags : option str
}.

Record conversation_row := {
  conv_id : Z;
  conv_user_id : str;
  conv_message : str;
  conv_response : str
}.

Record document_row := {
  doc_id : Z;
  doc_title : str;
  doc_content : str;
  doc_type : str;
  doc_source : option str
}.

Record chunk_row := {
  chk_id : Z;
  chk_document_id : Z;
  chk_chunk_text : str;
  chk_chunk_index : Z;
  chk_vector_id : str
}.

Record itinerary_row := {
  itin_id : Z;
  itin_name : str;
  itin_description : str;
  itin_route_data : str
}.

Record route_row := {
  route_id : Z;
  route_name : str;
  route_waypoints : str;
  route_distance : float;
  route_duration : str
}.

(** The tables, each with the [sqlite_sequence] counter that
    [AUTOINCREMENT] keeps for it (the largest rowid handed out so far). *)
Record database := {
  destinations : list destination_row;
  conversations : list conversation_row;
  seq_conversations : Z;
  documents : list document_row;
  seq_documents : Z;
  document_chunks : list chunk_row;
  seq_document_chunks : Z;
  itineraries : list itinerary_row;
  seq_itineraries : Z;
  routes : list route_row;
  seq_routes : Z
}.

(** ** Binding an [int] to a [?]

    [sqlite3] binds the signed 64-bit integers; for any other Python [int]
    [execute] raises [OverflowError]. *)
Definition sqlite_int_ok (n : Z) : bool :=
  (- 2 ^ 63 <=? n) && (n <=? 2 ^ 63 - 1).

Definition bind_int (n : Z) : result Z :=
  if sqlite_int_ok n then Return n
  else Raise (Exception (py "Python int too large to convert to SQLite INTEGER")).

(** ** The statements [main.py] executes

    Each takes the connection's working copy of the database and gives the
    updated copy; an [INSERT] also gives [cursor.lastrowid]. *)

(** [INSERT INTO conversations (user_id, message, response) VALUES (?, ?, ?)] *)
Definition insert_conversation (user_id message resp : str) (c : database)
  : database :=
  let id := seq_conversations c + 1 in
  {| destinations := destinations c;
     conversations := conversations c ++
       [{| conv_id := id; conv_user_id := user_id;
           conv_message := message; conv_response := resp |}];
     seq_conversations := id;
     documents := documents c; seq_documents := seq_documents c;
     document_chunks := document_chunks c;
     seq_document_chunks := seq_document_chunks c;
     itineraries := itineraries c; seq_itineraries := seq_itineraries c;
     routes := routes c; seq_routes := seq_routes c |}.

(** [INSERT INTO documents (title, content, type, source) VALUES (?, ?, ?, ?)] *)
Definition insert_document (title content type : str) (source : option str)
  (c : database) : database * Z :=
  let id := seq_documents c + 1 in
  ({| destinations := destinations c;
      conversations := conversations c;
      seq_conversations := seq_conversations c;
      documents := documents c ++
        [{| doc_id := id; doc_title := title; doc_content := content;
            doc_type := type; doc_source := source |}];
      seq_documents := id;
      document_chunks := document_chunks c;
      seq_document_chunks := seq_document_chunks c;
      itineraries := itineraries c; seq_itineraries := seq_itineraries c;
      routes := routes c; seq_routes := seq_routes c |}, id).

(** [INSERT INTO document_chunks (document_id, chunk_text, chunk_index,
    vector_id) VALUES (?, ?, ?, ?)] *)
Definition insert_chunk (document_id : Z) (chunk_text : str) (chunk_index : Z)
  (vector_id : str) (c : database) : database :=
  let id := seq_document_chunks c + 1 in
  {| destinations := destinations c;
     conversations := conversations c;
     seq_conversations := seq_conversations c;
     documents := documents c; seq_documents := seq_documents c;
     document_chunks := document_chunks c ++
       [{| chk_id := id; chk_document_id := document_id;
           chk_chunk_text := chunk_text; chk_chunk_index := chunk_index;
           chk_vector_id := vector_id |}];
     seq_document_chunks := id;
     itineraries := itineraries c; seq_itineraries := seq_itineraries c;
     routes := routes c; seq_routes := seq_routes c |}.

(** [INSERT INTO itineraries (name, description, route_data) VALUES (?, ?, ?)] *)
Definition insert_itinerary (name description route_data : str) (c : database)
  : database * Z :=
  let id := seq_itineraries c + 1 in
  ({| destinations := destinations c;
      conversations := conversations c;
      seq_conversations := seq_conversations c;
      documents := documents c; seq_documents := seq_documents c;
      document_chunks := document_chunks c;
      seq_document_chunks := seq_document_chunks c;
      itineraries := itineraries c ++
        [{| itin_id := id; itin_name := name;
            itin_description := description;
            itin_route_data := route_data |}];
      seq_itineraries := id;
      routes := routes c; seq_routes := seq_routes c |}, id).

(** [INSERT INTO routes (name, waypoints, distance, duration)
    VALUES (?, ?, ?, ?)] *)
Definition insert_route (name waypoints : str) (distance : float)
  (duration : str) (c : database) : database * Z :=
  let id := seq_routes c + 1 in
  ({| destinations := destinations c;
      conversations := conversations c;
      seq_conversations := seq_conversations c;
      documents := documents c; seq_documents := seq_documents c;
      document_chunks := document_chunks c;
      seq_document_chunks := seq_document_chunks c;
      itineraries := itineraries c; seq_itineraries := seq_itineraries c;
      routes := routes c ++
        [{| route_id := id; route_name := name;
            route_waypoints := waypoints; route_distance := distance;
            route_duration := duration |}];
      seq_routes := id |}, id).

(** [DELETE FROM document_chunks WHERE document_id = ?] *)
Definition delete_chunks_of (document_id : Z) (c : database) : database :=
  {| destinations := destinations c;
     conversations := conversations c;
     seq_conversations := seq_conversations c;
     documents := documents c; seq_documents := seq_documents c;
     document_chunks :=
       filter (fun r => negb (chk_document_id r =? document_id))
              (document_chunks c);
     seq_document_chunks := seq_document_chunks c;
     itineraries := itineraries c; seq_itineraries := seq_itineraries c;
     routes := routes c; seq_routes := seq_routes c |}.

(** [DELETE FROM documents WHERE id = ?] *)
Definition delete_document_row (id : Z) (c : database) : database :=
  {| destinations := destinations c;
     conversations := conversations c;
     seq_conversations := seq_conversations c;
     documents := filter (fun r => negb (doc_id r =? id)) (documents c);
     seq_documents := seq_documents c;
     document_chunks := document_chunks c;
     seq_document_chunks := seq_document_chunks c;
     itineraries := itineraries c; seq_itineraries := seq_itineraries c;
     routes := routes c; seq_routes := seq_routes c |}.

(* ================================================================== *)
(** * Request and response models (the Pydantic classes) *)
(* ================================================================== *)

Record ChatMessage := {
  chat_user_id : str;
  chat_message : str;
  chat_language : str
}.

Record ChatResponse := {
  cr_response : str;
  cr_user_id : str
}.

Record RecommendationRequest := {
  rq_user_id : str;
  rq_interests : list str;
  rq_max_results : Z
}.

(** One entry of the [recommendations] list that [get_recommendations]
    builds. *)
Record Recommendation := {
  rec_id : Z;
  rec_name : str;
  rec_description : option str;
  rec_category : option str;
  rec_location : option str;
  rec_rating : option float;
  rec_image_url : option str;
  rec_tags : list str;
  rec_match_score : float
}.

Record RecommendationResponse := {
  rr_recommendations : list Recommendation;
  rr_user_id : str
}.

Record DocumentIngestRequest := {
  ing_title : str;
  ing_content : str;
  ing_type : str;
  ing_source : option str
}.

Record DocumentIngestResponse := {
  ir_document_id : Z;
  ir_title : str;
  ir_chunks_created : Z;
  ir_status : str
}.

Record DocumentSearchRequest := {
  sr_query : str;
  sr_top_k : Z;
  sr_filter_type : option str
}.

(** Pydantic's validation of a search request body:
    [top_k: int = Field(default=5, ge=1, le=50)].  [None] is the 422 that
    FastAPI answers before the endpoint runs. *)
Definition DocumentSearchRequest_validate
  (query : str) (top_k : option Z) (filter_type : option str)
  : option DocumentSearchRequest :=
  let k := match top_k with Some k => k | None => 5 end in
  if (1 <=? k) && (k <=? 50)
  then Some {| sr_query := query; sr_top_k := k; sr_filter_type := filter_type |}
  else None.

Record ItineraryRequest := {
  it_interests : list str;
  it_duration : str;
  it_locations : option (list str);
  it_language : str
}.

Record RouteRequest := {
  rt_start_location : str;
  rt_end_location : str;
  rt_waypoints : option (list str);
  rt_language : str
}.

Record DeleteResponse := {
  del_document_id : Z;
  del_status : str
}.

(* ================================================================== *)
(** * The collaborators [main.py] imports *)
(* ================================================================== *)

(** A chunk is a Python dict; a key the dict may lack is an optional
    field, read through [getitem]. *)
Record chunk := {
  c_text : option str;
  c_chunk_index : option Z;
  c_embedding : option embedding;
  c_type : option str;
  c_source : option str;
  c_vector_id : option str
}.

(** [chunk['vector_id'] = vector_id] *)
Definition set_vector_id (vector_id : str) (c : chunk) : chunk :=
  {| c_text := c_text c; c_chunk_index := c_chunk_index c;
     c_embedding := c_embedding c; c_type := c_type c;
     c_source := c_source c; c_vector_id := Some vector_id |}.

Record Payload := {
  pl_document_id : Z;
  pl_chunk_index : Z;
  pl_type : option str;
  pl_source : option str;
  pl_text : str
}.

Record SearchResult := {
  res_vector_id : str;
  res_text : str;
  res_score : float;
  res_payload : Payload
}.

(** A filter dict such as [{'type': search.filter_type}]. *)
Definition filter_dict := list (string * str).

(** [document_processor.py]: the embedding model is loaded once and only
    read, so each method is a function of its arguments.
    [process_document] stands for [process_document(...)['chunks']]. *)
Record DocumentProcessor := {
  process_document : str -> str -> str -> option str -> result (list chunk);
  embed_chunks : list chunk -> result (list chunk);
  embed_text : str -> result embedding
}.

(** [vector_store.py]: the methods [main.py] calls, over the state [VS] of
    the vector index.  A method that raises may still have changed the
    index. *)
Record VectorStore (VS : Type) := {
  add_documents : list chunk -> Z -> VS -> result unit * VS;
  search : embedding -> Z -> option filter_dict -> VS -> result (list SearchResult);
  vs_delete_document : Z -> VS -> result unit * VS
}.
Arguments add_documents {VS} _ _ _ _.
Arguments search {VS} _ _ _ _ _.
Arguments vs_delete_document {VS} _ _ _.

Record Preferences := {
  pref_interests : list str;
  pref_duration : str;
  pref_locations : list str
}.

(** The dicts [rag_service] returns, read by key. *)
Record QueryResult := {
  qr_response : option str
}.

Record ItineraryResult := {
  itr_itinerary : option str;
  itr_context_sources : option (list str)
}.

Record RouteResult := {
  rtr_route : option str;
  rtr_start_location : option str;
  rtr_end_location : option str;
  rtr_waypoints : option (list str);
  rtr_context_sources : option (list str)
}.

(** [rag_service.py]: retrieval reads the index. *)
Record RAGService (VS : Type) := {
  rag_query : str -> str -> Z -> VS -> result QueryResult;
  rag_generate_itinerary : Preferences -> str -> VS -> result ItineraryResult;
  rag_generate_route :
    str -> str -> option (list str) -> str -> VS -> result RouteResult
}.
Arguments rag_query {VS} _ _ _ _ _.
Arguments rag_generate_itinerary {VS} _ _ _ _.
Arguments rag_generate_route {VS} _ _ _ _ _ _.

(** The module-level globals [init_db] sets: [None] when the service
    could not be initialised. *)
Record Services (VS : Type) := {
  vector_store : option (VectorStore VS);
  document_processor : option DocumentProcessor;
  rag_service : option (RAGService VS)
}.
Arguments vector_store {VS} _.
Arguments document_processor {VS} _.
Arguments rag_service {VS} _.

(** [requests.post(...)] to Ollama: it raises, or gives a response with a
    status code; [json_response] is what [response.json()['response']]
    evaluates to on that response. *)
Inductive post_outcome : Type :=
| PostRaises (e : exn)
| PostResponse (status_code : Z) (json_response : result str).

(* ================================================================== *)
(** * The world of a request, and the monad of endpoint code *)
(* ================================================================== *)

(** Calls into a text-generation capability, in the order made. *)
Inductive event : Type :=
| OllamaPost (prompt model : str)
| RagQuery (user_query language : str) (top_k : Z)
| RagGenerateItinerary (preferences : Preferences) (language : str)
| RagGenerateRoute (start_location end_location : str)
    (waypoints : option (list str)) (language : str).

Record world (VS : Type) := {
  db : database;         (* the committed contents of the SQLite file *)
  index : VS;            (* the vector index *)
  trace : list event
}.
Arguments db {VS} _.
Arguments index {VS} _.
Arguments trace {VS} _.

Definition set_db {VS} (d : database) (w : world VS) : world VS :=
  {| db := d; index := index w; trace := trace w |}.

Definition set_index {VS} (i : VS) (w : world VS) : world VS :=
  {| db := db w; index := i; trace := trace w |}.

Definition log {VS} (e : event) (w : world VS) : world VS :=
  {| db := db w; index := index w; trace := trace w ++ [e] |}.

(** Code that may raise and may change the world; what it did before
    raising stays done. *)
Definition M (VS A : Type) : Type := world VS -> result A * world VS.

Definition ret {VS A} (a : A) : M VS A := fun w => (Return a, w).

Definition bind {VS A B} (m : M VS A) (k : A -> M VS B) : M VS B :=
  fun w =>
    match m w with
    | (Return a, w') => k a w'
    | (Raise e, w') => (Raise e, w')
    end.

Definition lift {VS A} (r : result A) : M VS A := fun w => (r, w).

Definition bind_result {A B} (r : result A) (k : A -> result B) : result B :=
  match r with
  | Return a => k a
  | Raise e => Raise e
  end.

Declare Scope M_scope.
Delimit Scope M_scope with M.
Declare Scope R_scope.
Delimit Scope R_scope with R.

Notation "x <- m ;; k" := (bind m (fun x => k))
  (at level 61, m at next level, right associativity) : M_scope.
Notation "' p <- m ;; k" := (bind m (fun x => let p := x in k))
  (at level 61, p pattern, m at next level, right associativity) : M_scope.
Notation "m ;; k" := (bind m (fun _ => k))
  (at level 61, right associativity) : M_scope.
Notation "x <- m ;; k" := (bind_result m (fun x => k))
  (at level 61, m at next level, right associativity) : R_scope.

(** [sqlite3.connect(db_path)]: the connection works on a copy of the
    committed database; [conn.commit()] makes the copy the committed
    database.  A connection dropped without a commit leaves no trace. *)
Definition get_db_connection {VS} : M VS database :=
  fun w => (Return (db w), w).

Definition commit {VS} (conn : database) : M VS unit :=
  fun w => (Return tt, set_db conn w).

(** A call of a vector-store method that may change the index. *)
Definition on_index {VS A} (f : VS -> result A * VS) : M VS A :=
  fun w => let (r, i) := f (index w) in (r, set_index i w).

(** A call of a method that only reads the index. *)
Definition read_index {VS A} (f : VS -> result A) : M VS A :=
  fun w => (f (index w), w).

Definition emit {VS} (e : event) : M VS unit :=
  fun w => (Return tt, log e w).

(** [try: body  except Exception as e:
       raise HTTPException(status_code=500, detail=f"{prefix}{str(e)}")] *)
Definition except_500 {VS A} (prefix : str) (body : M VS A)
  : world VS -> response A * world VS :=
  fun w =>
    match body w with
    | (Return a, w') => (Ok a, w')
    | (Raise e, w') => (HTTPException 500 (prefix ++ str_of_exn e), w')
    end.

(* ================================================================== *)
(** * The endpoint code *)
(* ================================================================== *)

(** ** The canned answers and keyword triggers of [generate_simple_response] *)

Definition response_gobeklitepe : str := Eval vm_compute in
  py "Göbeklitepe, dünyanın en eski tapınak kompleksidir. M.Ö. 10.000 yıllarına dayanan bu yapı, Şanlıurfa'da bulunur. UNESCO Dünya Mirası listesindedir.".

Definition response_otel : str := Eval vm_compute in
  py "Bölgede birçok otel seçeneği bulunmaktadır. Şanlıurfa'da Hilton, Dedeman gibi büyük oteller var. Mardin'de butik taş evler popülerdir.".

Definition response_yemek : str := Eval vm_compute in
  py "GAP bölgesi zengin mutfağıyla ünlüdür. Urfa kebabı, çiğ köfte, Mardin'in kibe'si, Gaziantep baklavası mutlaka denenmeli lezzetlerdir.".

Definition response_ulasim : str := Eval vm_compute in
  py "Bölgeye havayolu ile Şanlıurfa, Gaziantep veya Diyarbakır havalimanlarından ulaşabilirsiniz. Şehirler arası otobüs seferleri de mevcuttur.".

Definition response_default : str := Eval vm_compute in
  py "GAP bölgesi, tarihi ve kültürel zenginlikleriyle sizi bekliyor. Size nasıl yardımcı olabilirim?".

Definition kw_gobeklitepe : str := Eval vm_compute in py "göbeklitepe".
Definition kw_otel : str := Eval vm_compute in py "otel".
Definition kw_konaklama : str := Eval vm_compute in py "konaklama".
Definition kw_yemek : str := Eval vm_compute in py "yemek".
Definition kw_ne_yenir : str := Eval vm_compute in py "ne yenir".
Definition kw_ulasim : str := Eval vm_compute in py "ulaşım".

(** The [recommendations] entry built from one fetched row. *)
Definition recommendation_of_row (row : destination_row) : Recommendation :=
  {| rec_id := dest_id row;
     rec_name := dest_name row;
     rec_description := dest_description row;
     rec_category := dest_category row;
     rec_location := dest_location row;
     rec_rating := dest_rating row;
     rec_image_url := dest_image_url row;
     rec_tags :=
       match dest_tags row with
       | Some (c :: t) => split 44%N (c :: t)   (* row[7].split(',') *)
       | _ => []                               (* None or '' *)
       end;
     rec_match_score := 0.85%Q |}.

(** [f"{document_id}_{chunk['chunk_index']}"] *)
Definition vector_id_of (document_id chunk_index : Z) : str :=
  str_of_int document_id ++ py "_" ++ str_of_int chunk_index.

(** The loop of [ingest_document] over [chunks_with_embeddings]: it sets
    each chunk's [vector_id] and inserts its row through the cursor.  It
    gives the chunks as the loop leaves them and the connection's copy. *)
Fixpoint save_chunks (document_id : Z) (chunks : list chunk) (conn : database)
  : result (list chunk * database) :=
  match chunks with
  | [] => Return ([], conn)
  | chunk :: rest =>
      (chunk_index <- getitem "chunk_index" (c_chunk_index chunk) ;;
       let vector_id := vector_id_of document_id chunk_index in
       let chunk := set_vector_id vector_id chunk in
       text <- getitem "text" (c_text chunk) ;;
       let conn := insert_chunk document_id text chunk_index vector_id conn in
       saved <- save_chunks document_id rest conn ;;
       Return (chunk :: fst saved, snd saved))%R
  end.

Section Backend.

(** The state of the vector index. *)
Context {VS : Type}.

(** Python's [str.lower]. *)
Variable lower : str -> str.

(** The Ollama server, as [requests.post] sees it for a prompt and a
    model name. *)
Variable ollama : str -> str -> post_outcome.

(** The globals [vector_store], [document_processor], [rag_service]. *)
Variable services : Services VS.

(** SQLite running a [SELECT * FROM destinations ...] text on the
    database: the fetched rows, or the error it raises. *)
Variable sqlite_fetchall : str -> database -> result (list destination_row).

(** [json.dumps] on a preferences dict and on a list of strings. *)
Variable json_dumps_preferences : Preferences -> str.
Variable json_dumps_list : list str -> str.

Local Open Scope M_scope.

(** *** [generate_simple_response] *)
Definition generate_simple_response (prompt : str) : str :=
  let prompt_lower := lower prompt in
  if contains kw_gobeklitepe prompt_lower then response_gobeklitepe
  else if contains kw_otel prompt_lower || contains kw_konaklama prompt_lower
  then response_otel
  else if contains kw_yemek prompt_lower || contains kw_ne_yenir prompt_lower
  then response_yemek
  else if contains kw_ulasim prompt_lower then response_ulasim
  else response_default.

(** *** [query_llm]: the [try] body, then the function *)
Definition query_llm_body (prompt model : str) : result str :=
  match ollama prompt model with
  | PostRaises e => Raise e
  | PostResponse status_code json_response =>
      if status_code =? 200 then json_response
      else Return (generate_simple_response prompt)
  end.

Definition query_llm (prompt : str) : M VS str :=
  let model := py "llama2" in
  emit (OllamaPost prompt model) ;;
  lift (try_except (query_llm_body prompt model)
          (fun _ => Return (generate_simple_response prompt))).

(** *** [chat_endpoint] *)
Definition chat_prompt (chat : ChatMessage) : str :=
  py "Sen Mezopotamya bölgesi turizm asistanısın. Kullanıcı sorusu: "
  ++ chat_message chat
  ++ py "
    
    Bölgedeki önemli yerler: Göbeklitepe, Balıklıgöl, Nemrut Dağı, Harran, Mardin, Hasankeyf.
    
    Kullanıcıya yardımcı ol, kısa ve öz cevap ver. Dil: "
  ++ chat_language chat.

Definition chat_generate (chat : ChatMessage) : M VS str :=
  match rag_service services with
  | Some rag =>
      fun w =>
        match
          (emit (RagQuery (chat_message chat) (chat_language chat) 5) ;;
           result <- read_index
             (rag_query rag (chat_message chat) (chat_language chat) 5) ;;
           lift (getitem "response" (qr_response result))) w
        with
        | (Return response, w') => (Return response, w')
        | (Raise _, w') => query_llm (chat_prompt chat) w'
        end
  | None => query_llm (chat_prompt chat)
  end.

Definition chat_endpoint (chat : ChatMessage) : M VS ChatResponse :=
  response <- chat_generate chat ;;
  conn <- get_db_connection ;;
  let conn :=
    insert_conversation (chat_user_id chat) (chat_message chat) response conn in
  commit conn ;;
  ret {| cr_response := response; cr_user_id := chat_user_id chat |}.

(** *** [get_recommendations] *)
Definition recommendations_query (request : RecommendationRequest) : str :=
  let interests_str := join (py ",") (rq_interests request) in
  py "
        SELECT * FROM destinations 
        WHERE tags LIKE '%" ++ interests_str ++ py "%' 
        ORDER BY rating DESC 
        LIMIT " ++ str_of_int (rq_max_results request) ++ py "
    ".

Definition get_recommendations (request : RecommendationRequest)
  : M VS RecommendationResponse :=
  conn <- get_db_connection ;;
  rows <- lift (sqlite_fetchall (recommendations_query request) conn) ;;
  let recommendations := map recommendation_of_row rows in
  ret {| rr_recommendations := recommendations;
         rr_user_id := rq_user_id request |}.

(** *** [ingest_document] *)
Definition ingest_document (doc : DocumentIngestRequest)
  : world VS -> response DocumentIngestResponse * world VS :=
  match document_processor services, vector_store services with
  | Some dp, Some vs =>
      except_500 (py "Error ingesting document: ")
        (chunks <- lift (process_document dp (ing_content doc) (ing_title doc)
                           (ing_type doc) (ing_source doc)) ;;
         chunks_with_embeddings <- lift (embed_chunks dp chunks) ;;
         conn <- get_db_connection ;;
         let (conn, document_id) :=
           insert_document (ing_title doc) (ing_content doc) (ing_type doc)
             (ing_source doc) conn in
         saved <- lift (save_chunks document_id chunks_with_embeddings conn) ;;
         let (chunks_with_embeddings, conn) := saved in
         commit conn ;;
         on_index (add_documents vs chunks_with_embeddings document_id) ;;
         ret {| ir_document_id := document_id;
                ir_title := ing_title doc;
                ir_chunks_created :=
                  Z.of_nat (List.length chunks_with_embeddings);
                ir_status := py "success" |})
  | _, _ =>
      fun w =>
        (HTTPException 503 (py "Document processing service unavailable"), w)
  end.

(** *** [search_documents] *)
Record DocumentSearchResponse := {
  srs_query : str;
  srs_results : list SearchResult;
  srs_count : Z
}.

Definition search_documents (search_rq : DocumentSearchRequest)
  : world VS -> response DocumentSearchResponse * world VS :=
  match document_processor services, vector_store services with
  | Some dp, Some vs =>
      except_500 (py "Error searching documents: ")
        (query_embedding <- lift (embed_text dp (sr_query search_rq)) ;;
         let filter :=
           match sr_filter_type search_rq with
           | Some (c :: t) => Some [("type"%string, c :: t)]
           | _ => None                  (* None or '' *)
           end in
         results <- read_index
           (search vs query_embedding (sr_top_k search_rq) filter) ;;
         ret {| srs_query := sr_query search_rq;
                srs_results := results;
                srs_count := Z.of_nat (List.length results) |})
  | _, _ =>
      fun w => (HTTPException 503 (py "Search service unavailable"), w)
  end.

(** *** [delete_document] *)
Definition delete_document (doc_id : Z)
  : world VS -> response DeleteResponse * world VS :=
  match vector_store services with
  | None => fun w => (HTTPException 503 (py "Vector store unavailable"), w)
  | Some vs =>
      except_500 (py "Error deleting document: ")
        (on_index (vs_delete_document vs doc_id) ;;
         conn <- get_db_connection ;;
         id <- lift (bind_int doc_id) ;;       (* execute(..., (doc_id,)) *)
         let conn := delete_chunks_of id conn in
         let conn := delete_document_row id conn in
         commit conn ;;
         ret {| del_document_id := doc_id; del_status := py "deleted" |})
  end.

(** *** [generate_itinerary] *)
Record ItineraryResponse := {
  itp_itinerary_id : Z;
  itp_itinerary : str;
  itp_preferences : Preferences;
  itp_sources : list str
}.

Definition get_or {A} (field : option A) (default : A) : A :=
  match field with Some a => a | None => default end.

Definition generate_itinerary (request : ItineraryRequest)
  : world VS -> response ItineraryResponse * world VS :=
  match rag_service services with
  | None => fun w => (HTTPException 503 (py "RAG service unavailable"), w)
  | Some rag =>
      except_500 (py "Error generating itinerary: ")
        (let preferences :=
           {| pref_interests := it_interests request;
              pref_duration := it_duration request;
              pref_locations :=
                match it_locations request with
                | Some (l :: ls) => l :: ls
                | _ => []               (* request.locations or [] *)
                end |} in
         emit (RagGenerateItinerary preferences (it_language request)) ;;
         result <- read_index
           (rag_generate_itinerary rag preferences (it_language request)) ;;
         conn <- get_db_connection ;;
         itinerary <- lift (getitem "itinerary" (itr_itinerary result)) ;;
         let (conn, itinerary_id) :=
           insert_itinerary (py "Plan - " ++ it_duration request) itinerary
             (json_dumps_preferences preferences) conn in
         commit conn ;;
         itinerary <- lift (getitem "itinerary" (itr_itinerary result)) ;;
         ret {| itp_itinerary_id := itinerary_id;
                itp_itinerary := itinerary;
                itp_preferences := preferences;
                itp_sources := get_or (itr_context_sources result) [] |})
  end.

(** *** [generate_route] *)
Record RouteResponse := {
  rtp_route_id : Z;
  rtp_route : str;
  rtp_start_location : str;
  rtp_end_location : str;
  rtp_waypoints : list str;
  rtp_sources : list str
}.

Definition generate_route (request : RouteRequest)
  : world VS -> response RouteResponse * world VS :=
  match rag_service services with
  | None => fun w => (HTTPException 503 (py "RAG service unavailable"), w)
  | Some rag =>
      except_500 (py "Error generating route: ")
        (emit (RagGenerateRoute (rt_start_location request)
                 (rt_end_location request) (rt_waypoints request)
                 (rt_language request)) ;;
         result <- read_index
           (rag_generate_route rag (rt_start_location request)
              (rt_end_location request) (rt_waypoints request)
              (rt_language request)) ;;
         conn <- get_db_connection ;;
         let (conn, route_id) :=
           insert_route
             (rt_start_location request ++ py " - " ++ rt_end_location request)
             (json_dumps_list (get_or (rt_waypoints request) []))
             0.0%Q (py "N/A") conn in
         commit conn ;;
         route <- lift (getitem "route" (rtr_route result)) ;;
         start_location <-
           lift (getitem "start_location" (rtr_start_location result)) ;;
         end_location <-
           lift (getitem "end_location" (rtr_end_location result)) ;;
         waypoints <- lift (getitem "waypoints" (rtr_waypoints result)) ;;
         ret {| rtp_route_id := route_id;
                rtp_route := route;
                rtp_start_location := start_location;
                rtp_end_location := end_location;
                rtp_waypoints := waypoints;
                rtp_sources := get_or (rtr_context_sources result) [] |})
  end.

End Backend.

(* ================================================================== *)
(** * The destination endpoints and the start-up of the services *)
(* ================================================================== *)

(** One destination as [get_destinations] and [get_destination_detail]
    build it from a fetched row. *)
Record DestinationOut := {
  out_id : Z;
  out_name : str;
  out_description : option str;
  out_category : option str;
  out_location : option str;
  out_rating : option float;
  out_image_url : option str;
  out_tags : list str
}.

Definition destination_of_row (row : destination_row) : DestinationOut :=
  {| out_id := dest_id row;
     out_name := dest_name row;
     out_description := dest_description row;
     out_category := dest_category row;
     out_location := dest_location row;
     out_rating := dest_rating row;
     out_image_url := dest_image_url row;
     out_tags :=
       match dest_tags row with
       | Some (c :: t) => split 44%N (c :: t)   (* row[7].split(',') *)
       | _ => []                               (* None or '' *)
       end |}.

(** Equality of two texts, as SQLite's [=] decides it on TEXT values. *)
Definition text_eqb (a b : str) : bool :=
  if list_eq_dec N.eq_dec a b then true else false.

(** [SELECT * FROM destinations WHERE category = ?]: the rows of the table,
    in table order, whose category is the given text; a NULL category
    matches nothing. *)
Definition select_destinations_where_category (category : str) (c : database)
  : list destination_row :=
  filter (fun row =>
            match dest_category row with
            | Some cat => text_eqb cat category
            | None => false
            end) (destinations c).

(** [SELECT * FROM destinations WHERE id = ?] followed by [fetchone()];
    the id is bound to the [?] first. *)
Definition select_destination_where_id (id : Z) (c : database)
  : result (option destination_row) :=
  (id <- bind_int id ;;
   Return (find (fun row => dest_id row =? id) (destinations c)))%R.

(** What [get_destinations] holds in [category]: a text, [None], or, when
    the call leaves the parameter out, the parameter's default, which is the
    object [Field(None, ...)] itself. *)
Inductive category_arg : Type :=
| CategoryText (s : str)
| CategoryNone
| CategoryDefault.

(** [sqlite3] cannot bind an object that is no number, text, bytes or
    [None]: [execute] raises (the text is that of Python 3.11). *)
Definition unsupported_binding : exn :=
  Exception (py "Error binding parameter 1: type 'FieldInfo' is not supported").

(** *** [get_destinations]

    An exception that is no [HTTPException] leaves the endpoint as it is. *)
Definition get_destinations {VS} (category : category_arg)
  : M VS (list DestinationOut) :=
  (conn <- get_db_connection ;;
   rows <-
     match category with
     | CategoryText (c :: t) =>
         ret (select_destinations_where_category (c :: t) conn)
     | CategoryDefault =>                (* truthy, and bound to the [?] *)
         lift (Raise unsupported_binding)
     | CategoryText [] | CategoryNone =>
         ret (destinations conn)         (* SELECT * FROM destinations *)
     end ;;
   ret (map destination_of_row rows))%M.

(** *** [get_destination_detail]

    [Return (HTTPException 404 ...)] is the 404 the function raises; [Raise]
    is an exception that is no [HTTPException]. *)
Definition get_destination_detail {VS} (destination_id : Z)
  : M VS (response DestinationOut) :=
  (conn <- get_db_connection ;;
   row <- lift (select_destination_where_id destination_id conn) ;;
   match row with
   | None => ret (HTTPException 404 (py "Destination not found"))
   | Some row => ret (Ok (destination_of_row row))
   end)%M.

(** *** [init_db], from [# Initialize Qdrant and RAG services] on

    What the constructors and the two start-up methods of the vector store
    do is given by the environment of the process. *)
Record Startup (VS : Type) := {
  new_VectorStore : result (VectorStore VS);           (* VectorStore() *)
  is_connected : VectorStore VS -> result bool;
  ensure_collection : VectorStore VS -> Z -> result unit;
  env_chunk_size : result Z;        (* int(os.getenv("CHUNK_SIZE", "512")) *)
  env_chunk_overlap : result Z;     (* int(os.getenv("CHUNK_OVERLAP", "50")) *)
  new_DocumentProcessor : Z -> Z -> result DocumentProcessor;
  new_RAGService :
    VectorStore VS -> DocumentProcessor -> result (RAGService VS)
}.
Arguments new_VectorStore {VS} _.
Arguments is_connected {VS} _ _.
Arguments ensure_collection {VS} _ _ _.
Arguments env_chunk_size {VS} _.
Arguments env_chunk_overlap {VS} _.
Arguments new_DocumentProcessor {VS} _ _ _.
Arguments new_RAGService {VS} _ _ _.

(** The first [try]: the store object is kept when it reports that it is
    not connected, and dropped when anything raises. *)
Definition init_vector_store {VS} (env : Startup VS) : option (VectorStore VS) :=
  match
    (vs <- new_VectorStore env ;;
     connected <- is_connected env vs ;;
     if (connected : bool)
     then (_ <- ensure_collection env vs 384 ;; Return vs)
     else Return vs)%R
  with
  | Return vs => Some vs
  | Raise _ => None
  end.

(** The second [try]. *)
Definition init_document_processor {VS} (env : Startup VS)
  : option DocumentProcessor :=
  match
    (chunk_size <- env_chunk_size env ;;
     chunk_overlap <- env_chunk_overlap env ;;
     new_DocumentProcessor env chunk_size chunk_overlap)%R
  with
  | Return dp => Some dp
  | Raise _ => None
  end.

(** The globals as [init_db] leaves them ([rag_service] starts as [None]). *)
Definition init_services {VS} (env : Startup VS) : Services VS :=
  let vector_store := init_vector_store env in
  let document_processor := init_document_processor env in
  {| vector_store := vector_store;
     document_processor := document_processor;
     rag_service :=
       match vector_store, document_processor with
       | Some vs, Some dp =>
           match new_RAGService env vs dp with
           | Return rag => Some rag
           | Raise _ => None
           end
       | _, _ => None
       end |}.

(* ================================================================== *)
(** * The vector index, from its specification *)
(* ================================================================== *)

Module VectorIndex.

(** Modelled from the spec: [vector_store.py] (class [VectorStore]), which
    [main.py] imports and which is not part of the sources at hand.  The
    definitions of this module follow the specification's data model
    (VectorRecord, SearchResult) and its VectorIndex operations: [upsert]
    writes or overwrites by [vector_id], all records of a call or none;
    [search] returns up to [limit] results ordered by descending
    similarity score, restricted by the filter on payload fields, ties
    broken by insertion order; [delete_by_document] removes every record
    whose payload names the document. *)
Record VectorRecord := {
  vr_vector_id : str;
  vr_embedding : embedding;
  vr_payload : Payload
}.

(** The collection, in insertion order. *)
Definition state := list VectorRecord.

Definition str_eqb (a b : str) : bool :=
  if list_eq_dec N.eq_dec a b then true else false.

Definition payload_field (key : string) (p : Payload) : option str :=
  if String.eqb key "type" then pl_type p
  else if String.eqb key "source" then pl_source p
  else if String.eqb key "text" then Some (pl_text p)
  else if String.eqb key "document_id" then Some (str_of_int (pl_document_id p))
  else if String.eqb key "chunk_index" then Some (str_of_int (pl_chunk_index p))
  else None.

Definition matches (f : option filter_dict) (p : Payload) : bool :=
  match f with
  | None => true
  | Some conds =>
      forallb (fun kv =>
                 match payload_field (fst kv) p with
                 | Some v => str_eqb v (snd kv)
                 | None => false
                 end) conds
  end.

(** Modelled from the spec: insertion of a result into a list held in
    descending score order, before the first result that does not score
    higher, so that a result found earlier precedes its ties. *)
Fixpoint insert_desc (x : SearchResult) (l : list SearchResult)
  : list SearchResult :=
  match l with
  | [] => [x]
  | y :: ys =>
      if Qle_bool (res_score y) (res_score x) then x :: y :: ys
      else y :: insert_desc x ys
  end.

Definition sort_desc (l : list SearchResult) : list SearchResult :=
  fold_right insert_desc [] l.

Section Similarity.

(** The similarity of two embeddings (higher is more relevant). *)
Variable similarity : embedding -> embedding -> float.

Definition result_of (query_vector : embedding) (r : VectorRecord)
  : SearchResult :=
  {| res_vector_id := vr_vector_id r;
     res_text := pl_text (vr_payload r);
     res_score := similarity query_vector (vr_embedding r);
     res_payload := vr_payload r |}.

(** Modelled from the spec: [search(query_vector, limit, filter)]. *)
Definition index_search (query_vector : embedding) (limit : Z)
  (f : option filter_dict) (st : state) : list SearchResult :=
  firstn (Z.to_nat limit)
    (sort_desc
       (map (result_of query_vector)
          (filter (fun r => matches f (vr_payload r)) st))).

(** Modelled from the spec: the record of a chunk, with the payload
    {document id, chunk index, type, source, text}. *)
Definition record_of (document_id : Z) (c : chunk) : result VectorRecord :=
  (vector_id <- getitem "vector_id" (c_vector_id c) ;;
   emb <- getitem "embedding" (c_embedding c) ;;
   chunk_index <- getitem "chunk_index" (c_chunk_index c) ;;
   text <- getitem "text" (c_text c) ;;
   Return {| vr_vector_id := vector_id;
             vr_embedding := emb;
             vr_payload :=
               {| pl_document_id := document_id;
                  pl_chunk_index := chunk_index;
                  pl_type := c_type c;
                  pl_source := c_source c;
                  pl_text := text |} |})%R.

Fixpoint records_of (document_id : Z) (chunks : list chunk)
  : result (list VectorRecord) :=
  match chunks with
  | [] => Return []
  | c :: rest =>
      (r <- record_of document_id c ;;
       rs <- records_of document_id rest ;;
       Return (r :: rs))%R
  end.

(** Modelled from the spec: [upsert(records)], by [vector_id]. *)
Fixpoint upsert_one (r : VectorRecord) (st : state) : state :=
  match st with
  | [] => [r]
  | r0 :: st' =>
      if str_eqb (vr_vector_id r0) (vr_vector_id r) then r :: st'
      else r0 :: upsert_one r st'
  end.

Definition upsert (records : list VectorRecord) (st : state) : state :=
  fold_left (fun st r => upsert_one r st) records st.

(** Modelled from the spec: [delete_by_document(document_id)]. *)
Definition delete_by_document (document_id : Z) (st : state) : state :=
  filter (fun r => negb (pl_document_id (vr_payload r) =? document_id)) st.

(** Modelled from the spec: the [VectorStore] object over this index. *)
Definition store : VectorStore state :=
  {| add_documents := fun chunks document_id st =>
       match records_of document_id chunks with
       | Return records => (Return tt, upsert records st)
       | Raise e => (Raise e, st)
       end;
     search := fun query_vector limit f st =>
       Return (index_search query_vector limit f st);
     vs_delete_document := fun document_id st =>
       (Return tt, delete_by_document document_id st) |}.

End Similarity.

End VectorIndex.

(* ================================================================== *)
(** * Fixtures for running the endpoints *)
(* ================================================================== *)

Module Fixtures.

Definition empty_db : database :=
  {| destinations := []; conversations := []; seq_conversations := 0;
     documents := []; seq_documents := 0;
     document_chunks := []; seq_document_chunks := 0;
     itineraries := []; seq_itineraries := 0;
     routes := []; seq_routes := 0 |}.

Definition fresh {VS} (i : VS) : world VS :=
  {| db := empty_db; index := i; trace := [] |}.

(** An Ollama server that cannot be reached. *)
Definition ollama_down (prompt model : str) : post_outcome :=
  PostRaises (Exception (py "Connection refused")).

(** An Ollama server answering 200 with an empty [response] field. *)
Definition ollama_empty (prompt model : str) : post_outcome :=
  PostResponse 200 (Return []).

(** A processor that makes one chunk of the whole text and embeds a text
    by its length. *)
Definition one_chunk_processor : DocumentProcessor :=
  {| process_document := fun text title doc_type source =>
       Return [{| c_text := Some text; c_chunk_index := Some 0;
                  c_embedding := None; c_type := Some doc_type;
                  c_source := source; c_vector_id := None |}];
     embed_chunks := fun chunks =>
       Return (map (fun c =>
                 {| c_text := c_text c; c_chunk_index := c_chunk_index c;
                    c_embedding :=
                      Some [inject_Z (Z.of_nat (List.length (get_or (c_text c) [])))];
                    c_type := c_type c; c_source := c_source c;
                    c_vector_id := c_vector_id c |}) chunks);
     embed_text := fun text => Return [inject_Z (Z.of_nat (List.length text))] |}.

(** A processor whose embedding model fails. *)
Definition failing_processor : DocumentProcessor :=
  {| process_document := process_document one_chunk_processor;
     embed_chunks := fun _ => Raise (Exception (py "embedding failed"));
     embed_text := fun _ => Raise (Exception (py "embedding failed")) |}.

(** A vector store that cannot be reached: every method raises. *)
Definition unreachable_store : VectorStore unit :=
  {| add_documents := fun _ _ st => (Raise (Exception (py "Connection refused")), st);
     search := fun _ _ _ _ => Raise (Exception (py "Connection refused"));
     vs_delete_document := fun _ st => (Raise (Exception (py "Connection refused")), st) |}.

(** Similarity for the examples: minus the squared distance of the
    first coordinates. *)
Definition closeness (a b : embedding) : float :=
  match a, b with
  | x :: _, y :: _ => (- ((x - y) * (x - y)))%Q
  | _, _ => 0%Q
  end.

Definition no_json_p (p : Preferences) : str := [].
Definition no_json_l (l : list str) : str := [].

(** A database engine that answers every [SELECT] with the given rows. *)
Definition fetch_rows (rows : list destination_row)
  (query : str) (d : database) : result (list destination_row) :=
  Return rows.

(** No service could be initialised. *)
Definition no_services {VS} : Services VS :=
  {| vector_store := None; document_processor := None; rag_service := None |}.

(** The processor is up, the vector store object exists but its server
    cannot be reached. *)
Definition store_unreachable : Services unit :=
  {| vector_store := Some unreachable_store;
     document_processor := Some one_chunk_processor;
     rag_service := None |}.

(** Processor and index both work. *)
Definition all_up : Services VectorIndex.state :=
  {| vector_store := Some (VectorIndex.store closeness);
     document_processor := Some one_chunk_processor;
     rag_service := None |}.

(** The index works, the embedding model does not. *)
Definition embedder_down : Services VectorIndex.state :=
  {| vector_store := Some (VectorIndex.store closeness);
     document_processor := Some failing_processor;
     rag_service := None |}.

(** An index of three chunks of document 7, embedded at 1, 5 and 3. *)
Definition record (i : Z) (x : Z) (text : string) : VectorIndex.VectorRecord :=
  {| VectorIndex.vr_vector_id := vector_id_of 7 i;
     VectorIndex.vr_embedding := [inject_Z x];
     VectorIndex.vr_payload :=
       {| pl_document_id := 7; pl_chunk_index := i;
          pl_type := Some (py "general"); pl_source := None;
          pl_text := py text |} |}.

Definition three_records : VectorIndex.state :=
  [record 0 1 "a"; record 1 5 "Harran"; record 2 3 "Urfa"].

Definition indexed : world VectorIndex.state :=
  {| db := empty_db; index := three_records; trace := [] |}.

Definition guide : DocumentIngestRequest :=
  {| ing_title := py "Guide";
     ing_content := py "Harran, koni evleriyle ünlü antik şehir";
     ing_type := py "general";
     ing_source := None |}.

Definition otel_question : ChatMessage :=
  {| chat_user_id := py "user123";
     chat_message := py "Otel önerir misin?";
     chat_language := py "tr" |}.

Definition gobeklitepe_row : destination_row :=
  {| dest_id := 1; dest_name := py "Göbeklitepe";
     dest_description := Some (py "Dünyanın en eski tapınak kompleksi, 12.000 yıllık tarih");
     dest_category := Some (py "Tarihi");
     dest_location := Some (py "Şanlıurfa");
     dest_rating := Some 4.8%Q;
     dest_image_url := Some (py "gobekli.jpg");
     dest_tags := Some (py "tarih,arkeoloji,unesco") |}.

(** A row without category and without tags. *)
Definition bare_row : destination_row :=
  {| dest_id := 2; dest_name := py "Harran";
     dest_description := None; dest_category := None;
     dest_location := None; dest_rating := None;
     dest_image_url := None; dest_tags := None |}.

Definition two_destinations : database :=
  {| destinations := [gobeklitepe_row; bare_row];
     conversations := []; seq_conversations := 0;
     documents := []; seq_documents := 0;
     document_chunks := []; seq_document_chunks := 0;
     itineraries := []; seq_itineraries := 0;
     routes := []; seq_routes := 0 |}.

Definition with_destinations : world unit :=
  {| db := two_destinations; index := tt; trace := [] |}.

(** A RAG service that answers every call, but whose route dict lacks the
    [route] key. *)
Definition rag_without_route : RAGService unit :=
  {| rag_query := fun _ _ _ _ => Return {| qr_response := Some (py "Merhaba") |};
     rag_generate_itinerary := fun _ _ _ =>
       Return {| itr_itinerary := Some (py "1. Gün: Harran");
                 itr_context_sources := None |};
     rag_generate_route := fun start_location end_location waypoints _ _ =>
       Return {| rtr_route := None;
                 rtr_start_location := Some start_location;
                 rtr_end_location := Some end_location;
                 rtr_waypoints := Some [];
                 rtr_context_sources := None |} |}.

Definition rag_only : Services unit :=
  {| vector_store := Some unreachable_store;
     document_processor := Some one_chunk_processor;
     rag_service := Some rag_without_route |}.

Definition urfa_mardin : RouteRequest :=
  {| rt_start_location := py "Urfa"; rt_end_location := py "Mardin";
     rt_waypoints := None; rt_language := py "tr" |}.

Definition three_days : ItineraryRequest :=
  {| it_interests := [py "tarih"]; it_duration := py "3 gün";
     it_locations := None; it_language := py "tr" |}.

(** A start-up in which the Qdrant server cannot be reached: the store
    object is built and says that it is not connected. *)
Definition startup_not_connected : Startup unit :=
  {| new_VectorStore := Return unreachable_store;
     is_connected := fun _ => Return false;
     ensure_collection := fun _ _ => Raise (Exception (py "Connection refused"));
     env_chunk_size := Return 512;
     env_chunk_overlap := Return 50;
     new_DocumentProcessor := fun _ _ => Return one_chunk_processor;
     new_RAGService := fun _ _ => Return rag_without_route |}.

(** A chunk dict without the [chunk_index] key. *)
Definition processor_without_index : DocumentProcessor :=
  {| process_document := fun text title doc_type source =>
       Return [{| c_text := Some text; c_chunk_index := None;
                  c_embedding := None; c_type := Some doc_type;
                  c_source := source; c_vector_id := None |}];
     embed_chunks := fun chunks => Return chunks;
     embed_text := embed_text one_chunk_processor |}.

Definition index_missing : Services VectorIndex.state :=
  {| vector_store := Some (VectorIndex.store closeness);
     document_processor := Some processor_without_index;
     rag_service := None |}.

(** A processor that gives the same index to both of its chunks. *)
Definition repeating_processor : DocumentProcessor :=
  {| process_document := fun text title doc_type source =>
       Return [{| c_text := Some (py "Harran"); c_chunk_index := Some 0;
                  c_embedding := Some [inject_Z 1]; c_type := Some doc_type;
                  c_source := source; c_vector_id := None |};
               {| c_text := Some (py "Urfa"); c_chunk_index := Some 0;
                  c_embedding := Some [inject_Z 2]; c_type := Some doc_type;
                  c_source := source; c_vector_id := None |}];
     embed_chunks := fun chunks => Return chunks;
     embed_text := embed_text one_chunk_processor |}.

Definition repeating : Services VectorIndex.state :=
  {| vector_store := Some (VectorIndex.store closeness);
     document_processor := Some repeating_processor;
     rag_service := None |}.

(** The world after the guide has gone through the repeating processor. *)
Definition after_repeating : world VectorIndex.state :=
  snd (ingest_document repeating guide (fresh [])).

(** The world after the guide has been ingested into an empty system. *)
Definition after_guide : world VectorIndex.state :=
  snd (ingest_document all_up guide (fresh [])).

End Fixtures.

(* ================================================================== *)
(** * Vocabulary of the statements *)
(* ================================================================== *)

(** The lower-cased text has an occurrence of the keyword. *)
Definition mentions (lower : str -> str) (kw text : str) : Prop :=
  substring kw (lower text).

(** The keyword triggers, in the order they are tried. *)
Definition triggers : list str :=
  [kw_gobeklitepe; kw_otel; kw_konaklama; kw_yemek; kw_ne_yenir; kw_ulasim].

(** [s] spells the keyword [kw] up to letter case: letter by letter, the
    code point of [s] is one that [str.lower] maps to the keyword's letter
    (the letter itself, or a capital of it). *)
Definition spells (kw s : str) : Prop :=
  Forall2 (fun k c => lower_char c = [k]) kw s.

(** The five canned answers. *)
Definition canned : list str :=
  [response_gobeklitepe; response_otel; response_yemek; response_ulasim;
   response_default].

(** The text of the primary generation call when it succeeds: a 200
    response whose JSON body has a [response] field. *)
Definition primary_text (ollama : str -> str -> post_outcome) (prompt : str)
  : option str :=
  match ollama prompt (py "llama2") with
  | PostResponse status_code (Return text) =>
      if status_code =? 200 then Some text else None
  | _ => None
  end.

(** Results in non-increasing score order. *)
Definition by_score_desc (a b : SearchResult) : Prop :=
  (res_score b <= res_score a)%Q.

(** The keys of a table are distinct and none exceeds the table's
    [AUTOINCREMENT] counter. *)
Definition keys_ok {A : Type} (key : A -> Z) (counter : Z) (rows : list A)
  : Prop :=
  NoDup (map key rows) /\ Forall (fun r => key r <= counter) rows.

(** The state of the tables that [main.py]'s statements keep: keys are
    distinct and below their counters, and a chunk row names a document id
    that has been handed out and carries the vector id made of its document
    id and chunk index. *)
Definition db_ok (d : database) : Prop :=
  keys_ok conv_id (seq_conversations d) (conversations d) /\
  keys_ok doc_id (seq_documents d) (documents d) /\
  keys_ok chk_id (seq_document_chunks d) (document_chunks d) /\
  keys_ok itin_id (seq_itineraries d) (itineraries d) /\
  keys_ok route_id (seq_routes d) (routes d) /\
  Forall (fun r => chk_document_id r <= seq_documents d /\
                   chk_vector_id r
                   = vector_id_of (chk_document_id r) (chk_chunk_index r))
         (document_chunks d).

(** A text without a comma. *)
Definition comma_free (s : str) : Prop := ~ In 44%N s.

(* ================================================================== *)
(** * Facts about strings *)
(* ================================================================== *)

Section StringFacts.

Lemma starts_with_spec (p s : str) :
  starts_with p s = true <-> exists post, s = p ++ post.
Proof.
  revert s; induction p as [|a p IH]; intros s; simpl.
  - split; [intros _; now exists s | reflexivity].
  - destruct s as [|b s].
    + split; [discriminate | intros [post H]; discriminate].
    + rewrite andb_true_iff, N.eqb_eq, IH. split.
      * intros [-> [post ->]]. now exists post.
      * intros [post H]. injection H as -> ->. split; [reflexivity | now exists post].
Qed.

(** [sub in s] holds exactly when [s] has an occurrence of [sub]. *)
Lemma contains_spec (sub s : str) :
  contains sub s = true <-> substring sub s.
Proof.
  unfold substring. induction s as [|c s IH].
  - simpl. rewrite orb_false_r, starts_with_spec. split.
    + intros [post H]. now exists [], post.
    + intros [pre [post H]]. destruct pre; [now exists post | discriminate].
  - cbn [contains]. rewrite orb_true_iff, starts_with_spec, IH. split.
    + intros [[post H] | [pre [post H]]].
      * now exists [], post.
      * exists (c :: pre), post. now rewrite H.
    + intros [[|c' pre] [post H]].
      * left. now exists post.
      * right. injection H as _ H. now exists pre, post.
Qed.

Lemma contains_false_spec (sub s : str) :
  contains sub s = false <-> ~ substring sub s.
Proof.
  rewrite <- contains_spec. destruct (contains sub s); split; intros H;
    try reflexivity; try discriminate; now try (exfalso; apply H).
Qed.

(** [lower_latin] works character by character. *)
Lemma lower_latin_app (a b : str) :
  lower_latin (a ++ b) = lower_latin a ++ lower_latin b.
Proof. unfold lower_latin. now rewrite flat_map_app. Qed.

End StringFacts.

(** ** Decimal numerals *)

Section Decimal.

Lemma codes_inj (s t : string) : codes s = codes t -> s = t.
Proof.
  unfold codes. intros H.
  rewrite <- (string_of_list_ascii_of_string s), <- (string_of_list_ascii_of_string t).
  f_equal. revert H. generalize (list_ascii_of_string s) (list_ascii_of_string t).
  induction l as [|a l IH]; intros [|b l']; simpl; try discriminate; auto.
  intros H. injection H as Hab Hl. f_equal; auto.
  rewrite <- (ascii_N_embedding a), <- (ascii_N_embedding b). now f_equal.
Qed.

Lemma string_of_uint_numeral (d : Decimal.uint) :
  Forall numeral_char (codes (NilEmpty.string_of_uint d)).
Proof.
  induction d; simpl; constructor; auto; left; cbv; split; discriminate.
Qed.

Lemma string_of_int_numeral (d : Decimal.signed_int) :
  Forall numeral_char (codes (NilZero.string_of_int d)).
Proof.
  destruct d as [u|u]; unfold NilZero.string_of_int, NilZero.string_of_uint.
  - destruct u; try apply string_of_uint_numeral.
    simpl. constructor; [left; cbv; split; discriminate | constructor].
  - change (codes (String "-" ?s)) with (45%N :: codes s).
    cbn [codes list_ascii_of_string map]. constructor; [now right|].
    destruct u; try apply string_of_uint_numeral.
    simpl. constructor; [left; cbv; split; discriminate | constructor].
Qed.

Lemma to_int_not_nil (z : Z) :
  Z.to_int z <> Decimal.Pos Decimal.Nil /\ Z.to_int z <> Decimal.Neg Decimal.Nil.
Proof.
  destruct z; simpl; split; try discriminate.
  - intros H. injection H as H. now apply (DecimalPos.Unsigned.to_uint_nonnil p).
  - intros H. injection H as H. now apply (DecimalPos.Unsigned.to_uint_nonnil p).
Qed.

(** [str(n)] holds digits and at most a sign. *)
Lemma str_of_int_numeral (n : Z) : Forall numeral_char (str_of_int n).
Proof. apply string_of_int_numeral. Qed.

(** [str] is one-to-one on integers. *)
Lemma str_of_int_inj (n m : Z) : str_of_int n = str_of_int m -> n = m.
Proof.
  intros H. apply codes_inj in H.
  destruct (to_int_not_nil n) as [Hn1 Hn2], (to_int_not_nil m) as [Hm1 Hm2].
  pose proof (NilZero.isi _ Hn1 Hn2) as En.
  pose proof (NilZero.isi _ Hm1 Hm2) as Em.
  rewrite H in En. rewrite En in Em. injection Em as Em.
  rewrite <- (DecimalZ.of_to n), <- (DecimalZ.of_to m). now f_equal.
Qed.

(** Two texts cut at their first underscore agree on both sides. *)
Lemma underscore_split (a b c d : str) :
  Forall numeral_char a -> Forall numeral_char c ->
  a ++ 95%N :: b = c ++ 95%N :: d -> a = c /\ b = d.
Proof.
  intros Ha. revert c. induction Ha as [|x a Hx Ha IH]; intros c Hc H.
  - destruct c as [|y c]; simpl in H.
    + injection H as ->. auto.
    + injection H as <- _. apply Forall_inv in Hc.
      destruct Hc as [[? ?]|?]; lia.
  - destruct c as [|y c]; simpl in H.
    + injection H as -> _. destruct Hx as [[? ?]|?]; lia.
    + injection H as <- H. apply Forall_inv_tail in Hc.
      destruct (IH c Hc H) as [-> ->]. auto.
Qed.

Lemma vector_id_of_inj (d1 c1 d2 c2 : Z) :
  vector_id_of d1 c1 = vector_id_of d2 c2 -> d1 = d2 /\ c1 = c2.
Proof.
  unfold vector_id_of. change (py "_") with [95%N]. simpl app at 2 4. simpl.
  intros H. apply underscore_split in H; try apply str_of_int_numeral.
  destruct H as [H1 H2]. split; now apply str_of_int_inj.
Qed.

End Decimal.

(* ================================================================== *)
(** * The generation fallback chain *)
(* ================================================================== *)

Section Fallback.

Variable lower : str -> str.

Ltac dispatch :=
  unfold generate_simple_response;
  repeat match goal with
         | |- context [contains ?kw ?s] =>
             let E := fresh "E" in destruct (contains kw s) eqn:E
         end; cbn [orb].

(** Every branch of the rule-based fallback gives one of the canned
    answers. *)
Lemma generate_simple_response_canned (prompt : str) :
  In (generate_simple_response lower prompt) canned.
Proof. dispatch; unfold canned; simpl; tauto. Qed.

Lemma canned_nonempty (s : str) : In s canned -> s <> [].
Proof.
  unfold canned; simpl.
  intros [<-|[<-|[<-|[<-|[<-|[]]]]]]; intros H; vm_compute in H; discriminate.
Qed.

Lemma generate_simple_response_nonempty (prompt : str) :
  generate_simple_response lower prompt <> [].
Proof. apply canned_nonempty, generate_simple_response_canned. Qed.

Lemma query_llm_value (ollama : str -> str -> post_outcome) {VS}
  (prompt : str) (w : world VS) :
  query_llm lower ollama prompt w =
    (Return match primary_text ollama prompt with
            | Some text => text
            | None => generate_simple_response lower prompt
            end,
     log (OllamaPost prompt (py "llama2")) w).
Proof.
  unfold query_llm, primary_text, query_llm_body, bind, emit, lift.
  cbn beta iota.
  destruct (ollama prompt (py "llama2")) as [e|code [text|e]];
    try destruct (code =? 200); reflexivity.
Qed.

End Fallback.

(** A spelling of a keyword lower-cases to the keyword. *)
Lemma spells_lower_latin (kw s : str) : spells kw s -> lower_latin s = kw.
Proof.
  induction 1 as [|k c kw s Hc _ IH]; [reflexivity|].
  change (lower_latin (c :: s)) with (lower_char c ++ lower_latin s).
  now rewrite Hc, IH.
Qed.

(** On Latin text, an occurrence of a spelling of the keyword is found. *)
Lemma spelling_is_mentioned (lower : str -> str) (kw s prompt : str) :
  (forall t, latin t -> lower t = lower_latin t) ->
  latin prompt -> spells kw s -> substring s prompt ->
  mentions lower kw prompt.
Proof.
  intros Hlower Hlatin Hs [pre [post ->]]. unfold mentions.
  rewrite (Hlower _ Hlatin), !lower_latin_app, (spells_lower_latin kw s Hs).
  now exists (lower_latin pre), (lower_latin post).
Qed.

(** C5 (as amended). The rule-based fallback is a keyword dispatch on the
    input lower-cased by [str.lower], in this order: the landmark trigger
    "göbeklitepe" gives the landmark answer; otherwise a lodging trigger
    ("otel", "konaklama") the lodging answer; otherwise a food trigger
    ("yemek", "ne yenir") the food answer; otherwise the transport trigger
    ("ulaşım") the transport answer; and with no trigger the generic default
    answer.  On text of the Latin blocks the match ignores letter case as far
    as [str.lower] does: a trigger is found in every spelling whose letters
    are, one by one, code points that [str.lower] maps to the trigger's
    letters. *)
Theorem generate_simple_response_dispatch (lower : str -> str) (prompt : str) :
  (forall t, latin t -> lower t = lower_latin t) ->
  ((mentions lower kw_gobeklitepe prompt ->
    generate_simple_response lower prompt = response_gobeklitepe) /\
   (~ mentions lower kw_gobeklitepe prompt ->
    mentions lower kw_otel prompt \/ mentions lower kw_konaklama prompt ->
    generate_simple_response lower prompt = response_otel) /\
   (~ mentions lower kw_gobeklitepe prompt ->
    ~ (mentions lower kw_otel prompt \/ mentions lower kw_konaklama prompt) ->
    mentions lower kw_yemek prompt \/ mentions lower kw_ne_yenir prompt ->
    generate_simple_response lower prompt = response_yemek) /\
   (~ mentions lower kw_gobeklitepe prompt ->
    ~ (mentions lower kw_otel prompt \/ mentions lower kw_konaklama prompt) ->
    ~ (mentions lower kw_yemek prompt \/ mentions lower kw_ne_yenir prompt) ->
    mentions lower kw_ulasim prompt ->
    generate_simple_response lower prompt = response_ulasim) /\
   (~ mentions lower kw_gobeklitepe prompt ->
    ~ (mentions lower kw_otel prompt \/ mentions lower kw_konaklama prompt) ->
    ~ (mentions lower kw_yemek prompt \/ mentions lower kw_ne_yenir prompt) ->
    ~ mentions lower kw_ulasim prompt ->
    generate_simple_response lower prompt = response_default)) /\
  (latin prompt ->
   forall kw s : str,
     In kw triggers -> spells kw s -> substring s prompt ->
     mentions lower kw prompt).
Proof.
  intros Hlower. split.
  - unfold mentions, generate_simple_response.
    repeat match goal with
           | |- context [contains ?kw ?s] =>
               let E := fresh "E" in
               destruct (contains kw s) eqn:E;
               [apply contains_spec in E | apply contains_false_spec in E]
           end; cbn [orb]; repeat split; intros; try reflexivity; tauto.
  - intros Hlatin kw s _ Hs Hsub.
    now apply (spelling_is_mentioned lower kw s prompt).
Qed.

(** The dispatch on capitals: "GÖBEKLITEPE" spells the landmark trigger, so
    the landmark answer is given although a lodging word follows. *)
Lemma generate_simple_response_dispatch_witness :
  generate_simple_response lower_latin (py "GÖBEKLITEPE otelleri")
  = response_gobeklitepe.
Proof.
  destruct (generate_simple_response_dispatch lower_latin
              (py "GÖBEKLITEPE otelleri") (fun t _ => eq_refl))
    as [[Hfirst _] Hcase].
  apply Hfirst. apply (Hcase ltac:(vm_compute; repeat constructor)
                         kw_gobeklitepe (py "GÖBEKLITEPE")).
  - left. reflexivity.
  - vm_compute. repeat constructor.
  - exists [], (py " otelleri"). vm_compute. reflexivity.
Defined.

(** C5 (as stated) fails: the match is not insensitive to case.  The
    transport trigger in capitals, as [str.upper] itself writes it, is not
    found, because [str.lower] maps "I" to "i" and not to "ı"; nor is the
    landmark trigger written with the Turkish capital "İ", which lower-cases
    to "i" followed by a combining dot.  Both inputs get the default answer,
    where their lower-case spellings get the topic's answer. *)
Lemma generate_simple_response_turkish_capitals :
  upper_latin kw_ulasim = py "ULAŞIM" /\
  generate_simple_response lower_latin (py "ULAŞIM") = response_default /\
  generate_simple_response lower_latin (py "ulaşım") = response_ulasim /\
  generate_simple_response lower_latin (py "GÖBEKLİTEPE") = response_default /\
  generate_simple_response lower_latin (py "göbeklitepe") = response_gobeklitepe.
Proof. repeat split; vm_compute; reflexivity. Qed.

(** C1 (as amended). [query_llm] never raises.  Its value is the model's text,
    verbatim, when the primary call succeeds (status 200 and a [response]
    field in the body); in every other case (the request raises, another
    status, no such field) it is the answer of the rule-based fallback, which
    is one of the five canned answers and is not empty. *)
Theorem query_llm_never_raises {VS : Type} (lower : str -> str)
  (ollama : str -> str -> post_outcome) (prompt : str) (w : world VS) :
  (exists s, fst (query_llm lower ollama prompt w) = Return s /\
             match primary_text ollama prompt with
             | Some text => s = text
             | None => s = generate_simple_response lower prompt /\ s <> []
             end) /\
  In (generate_simple_response lower prompt) canned /\
  generate_simple_response lower prompt <> [].
Proof.
  split; [|split].
  - rewrite query_llm_value. cbn [fst]. eexists. split; [reflexivity|].
    destruct (primary_text ollama prompt); [reflexivity|].
    split; [reflexivity | apply generate_simple_response_nonempty].
  - apply generate_simple_response_canned.
  - apply generate_simple_response_nonempty.
Qed.

(** C1 (as stated) fails: a 200 response whose [response] field is the empty
    string is returned as it is. *)
Lemma query_llm_empty_answer :
  fst (query_llm lower_latin Fixtures.ollama_empty (py "Merhaba")
         (Fixtures.fresh tt)) = Return [] /\
  ~ (forall (ollama : str -> str -> post_outcome) (prompt : str)
            (w : world unit),
        exists s, fst (query_llm lower_latin ollama prompt w) = Return s /\
                  s <> []).
Proof.
  assert (E : fst (query_llm lower_latin Fixtures.ollama_empty (py "Merhaba")
                     (Fixtures.fresh tt)) = Return []) by reflexivity.
  split; [exact E|].
  intros H.
  destruct (H Fixtures.ollama_empty (py "Merhaba") (Fixtures.fresh tt))
    as [s [Hs Hne]].
  rewrite E in Hs. injection Hs as <-. now apply Hne.
Qed.

(** The connection-failure scenario: with Ollama unreachable the chain
    answers with a canned text. *)
Lemma query_llm_unreachable (prompt : str) :
  fst (query_llm lower_latin Fixtures.ollama_down prompt (Fixtures.fresh tt))
  = Return (generate_simple_response lower_latin prompt).
Proof. now rewrite query_llm_value. Qed.

(** ** What the fallback looks at *)

Lemma chat_prompt_mentions_gobeklitepe (chat : ChatMessage) :
  contains kw_gobeklitepe (lower_latin (chat_prompt chat)) = true.
Proof.
  apply contains_spec. unfold chat_prompt.
  rewrite !lower_latin_app.
  match goal with
  | |- substring _ (?a ++ ?m ++ lower_latin (py ?lit) ++ ?l) =>
      assert (S : substring kw_gobeklitepe (lower_latin (py lit)))
        by (apply contains_spec; vm_compute; reflexivity);
      destruct S as [pre [post ->]];
      exists (a ++ m ++ pre), (post ++ l)
  end.
  now rewrite <- !app_assoc.
Qed.

(** On the prompt [chat_endpoint] assembles, the fallback gives the landmark
    answer whatever the user wrote. *)
Lemma fallback_on_chat_prompt (chat : ChatMessage) :
  generate_simple_response lower_latin (chat_prompt chat) = response_gobeklitepe.
Proof.
  unfold generate_simple_response.
  now rewrite chat_prompt_mentions_gobeklitepe.
Qed.

(** C4. The code at the failing input.  A user asks about hotels while the
    RAG service is not initialised and Ollama cannot be reached:
    [chat_endpoint] answers with the landmark text, although the fallback
    applied to the user's message alone gives the lodging text.  The
    fallback is handed the assembled prompt, whose fixed part names
    Göbeklitepe, so for every message the chat fallback answers alike. *)
Theorem chat_fallback_inspects_prompt :
  fst (chat_endpoint lower_latin Fixtures.ollama_down Fixtures.no_services
         Fixtures.otel_question (Fixtures.fresh tt))
  = Return {| cr_response := response_gobeklitepe;
              cr_user_id := py "user123" |} /\
  generate_simple_response lower_latin (chat_message Fixtures.otel_question)
  = response_otel /\
  (forall chat : ChatMessage,
      fst (chat_generate lower_latin Fixtures.ollama_down
             (@Fixtures.no_services unit) chat (Fixtures.fresh tt))
      = Return response_gobeklitepe).
Proof.
  split; [|split].
  - vm_compute. reflexivity.
  - vm_compute. reflexivity.
  - intros chat. unfold chat_generate. cbn [rag_service Fixtures.no_services].
    rewrite query_llm_value. cbn [fst].
    unfold primary_text, Fixtures.ollama_down.
    now rewrite fallback_on_chat_prompt.
Qed.

(* ================================================================== *)
(** * The chat endpoint and the RAG-dependent endpoints *)
(* ================================================================== *)

Section Endpoints.

Context {VS : Type}.
Variable lower : str -> str.
Variable ollama : str -> str -> post_outcome.
Variable services : Services VS.

(** Generation for a chat message always gives a text and leaves the
    database and the index alone; it only adds to the trace. *)
Lemma chat_generate_returns (chat : ChatMessage) (w : world VS) :
  exists text t,
    chat_generate lower ollama services chat w
    = (Return text, {| db := db w; index := index w; trace := trace w ++ t |}).
Proof.
  unfold chat_generate. destruct (rag_service services) as [rag|].
  - unfold bind, emit, read_index, lift, log. cbn [db index trace].
    destruct (rag_query rag (chat_message chat) (chat_language chat) 5 (index w))
      as [[[response|]]|e]; cbn [qr_response getitem].
    + now exists response, [RagQuery (chat_message chat) (chat_language chat) 5].
    + rewrite query_llm_value. unfold log. cbn [db index trace].
      eexists; eexists. now rewrite <- app_assoc.
    + rewrite query_llm_value. unfold log. cbn [db index trace].
      eexists; eexists. now rewrite <- app_assoc.
  - rewrite query_llm_value. unfold log. eexists; eexists. reflexivity.
Qed.

(** [chat_endpoint] from its generation step on. *)
Lemma chat_endpoint_unfold (chat : ChatMessage) (w : world VS) :
  chat_endpoint lower ollama services chat w =
    match chat_generate lower ollama services chat w with
    | (Return text, w1) =>
        (Return {| cr_response := text; cr_user_id := chat_user_id chat |},
         set_db (insert_conversation (chat_user_id chat) (chat_message chat)
                   text (db w1)) w1)
    | (Raise e, w1) => (Raise e, w1)
    end.
Proof.
  unfold chat_endpoint, bind, get_db_connection, commit, ret.
  destruct (chat_generate lower ollama services chat w) as [[text|e] w1];
    reflexivity.
Qed.

(** A chat request always succeeds. *)
Lemma chat_endpoint_returns (chat : ChatMessage) (w : world VS) :
  exists resp w', chat_endpoint lower ollama services chat w = (Return resp, w').
Proof.
  rewrite chat_endpoint_unfold.
  destruct (chat_generate_returns chat w) as [text [t ->]].
  eexists; eexists; reflexivity.
Qed.

End Endpoints.



(** C9. A chat request that returns has added exactly one row to
    [conversations], holding the request's [user_id], the user's message and
    the very text of the response; the other tables are as before.  The row
    is committed in the world the response comes with. *)
Theorem chat_persists_conversation {VS : Type} (lower : str -> str)
  (ollama : str -> str -> post_outcome) (services : Services VS)
  (chat : ChatMessage) (w w' : world VS) (resp : ChatResponse) :
  chat_endpoint lower ollama services chat w = (Return resp, w') ->
  cr_user_id resp = chat_user_id chat /\
  conversations (db w') =
    conversations (db w) ++
      [{| conv_id := seq_conversations (db w) + 1;
          conv_user_id := chat_user_id chat;
          conv_message := chat_message chat;
          conv_response := cr_response resp |}] /\
  destinations (db w') = destinations (db w) /\
  documents (db w') = documents (db w) /\
  document_chunks (db w') = document_chunks (db w) /\
  itineraries (db w') = itineraries (db w) /\
  routes (db w') = routes (db w).
Proof.
  rewrite chat_endpoint_unfold.
  destruct (chat_generate_returns lower ollama services chat w) as [text [t ->]].
  intros H. injection H as <- <-. cbn. repeat split; reflexivity.
Qed.

Lemma chat_persists_conversation_witness :
  conversations
    (db (snd (chat_endpoint lower_latin Fixtures.ollama_down
                Fixtures.no_services Fixtures.otel_question (Fixtures.fresh tt))))
  = [{| conv_id := 1;
        conv_user_id := py "user123";
        conv_message := py "Otel önerir misin?";
        conv_response := response_gobeklitepe |}].
Proof.
  pose proof (chat_persists_conversation lower_latin Fixtures.ollama_down
                (@Fixtures.no_services unit) Fixtures.otel_question
                (Fixtures.fresh tt) _ _ (surjective_pairing _)) as H.
  destruct H as [_ [H _]]. rewrite H. vm_compute. reflexivity.
Defined.

(* ================================================================== *)
(** * Document deletion and ingestion *)
(* ================================================================== *)

(** C10. Deletion goes to the vector store first.  If its delete raises,
    [delete_document] raises [HTTPException(500, "Error deleting document: "
    + str(e))] and the database is as before: the rows of the document and of
    its chunks are untouched.  In general the database changes only when the
    vector-store delete has returned. *)
Theorem delete_document_vector_store_first {VS : Type} (services : Services VS)
  (vs : VectorStore VS) (doc_id : Z) (w : world VS) :
  vector_store services = Some vs ->
  (forall (e : exn) (i' : VS),
      vs_delete_document vs doc_id (index w) = (Raise e, i') ->
      delete_document services doc_id w
      = (HTTPException 500 (py "Error deleting document: " ++ str_of_exn e),
         set_index i' w) /\
      db (snd (delete_document services doc_id w)) = db w) /\
  (db (snd (delete_document services doc_id w)) <> db w ->
   exists i', vs_delete_document vs doc_id (index w) = (Return tt, i')).
Proof.
  intros Hvs. unfold delete_document. rewrite Hvs.
  unfold except_500, bind, on_index, get_db_connection, commit, ret.
  split.
  - intros e i' Hdel. rewrite Hdel. split; reflexivity.
  - destruct (vs_delete_document vs doc_id (index w)) as [[[]|e] i'].
    + intros _. now exists i'.
    + cbn. intros H. now contradiction H.
Qed.

Lemma delete_document_vector_store_first_witness :
  delete_document Fixtures.store_unreachable 1 (Fixtures.fresh tt)
  = (HTTPException 500
       (py "Error deleting document: "
        ++ str_of_exn (Exception (py "Connection refused"))),
     set_index tt (Fixtures.fresh tt)) /\
  db (snd (delete_document Fixtures.store_unreachable 1 (Fixtures.fresh tt)))
  = db (Fixtures.fresh tt).
Proof.
  exact (proj1 (delete_document_vector_store_first Fixtures.store_unreachable
                  Fixtures.unreachable_store 1 (Fixtures.fresh tt) eq_refl)
           (Exception (py "Connection refused")) tt eq_refl).
Defined.

(** ** The chunk loop *)

(** The loop only appends chunk rows: every row it adds belongs to the
    document and carries the vector id derived from the document id and the
    chunk's index; every chunk it leaves carries that vector id too. *)
Lemma save_chunks_spec (document_id : Z) (chunks : list chunk) :
  forall (conn conn' : database) (chunks' : list chunk),
    save_chunks document_id chunks conn = Return (chunks', conn') ->
    exists rows,
      document_chunks conn' = document_chunks conn ++ rows /\
      Forall (fun r => chk_document_id r = document_id /\
                       chk_vector_id r
                       = vector_id_of (chk_document_id r) (chk_chunk_index r))
             rows /\
      map chk_chunk_index rows = map (fun c => get_or (c_chunk_index c) 0) chunks /\
      List.length chunks' = List.length chunks /\
      Forall (fun c => exists i, c_chunk_index c = Some i /\
                                 c_vector_id c = Some (vector_id_of document_id i))
             chunks' /\
      documents conn' = documents conn /\
      conversations conn' = conversations conn.
Proof.
  induction chunks as [|c rest IH]; intros conn conn' chunks' H.
  - injection H as <- <-. exists []. rewrite List.app_nil_r.
    repeat split; constructor.
  - cbn [save_chunks] in H.
    destruct (c_chunk_index c) as [i|] eqn:Ei; [|discriminate].
    cbn [getitem bind_result set_vector_id c_text] in H.
    destruct (c_text c) as [text|] eqn:Et; [|discriminate].
    cbn [getitem bind_result] in H.
    destruct (save_chunks document_id rest _) as [[rest' conn'']|e] eqn:Er;
      [|discriminate].
    cbn [bind_result fst snd] in H. injection H as <- <-.
    destruct (IH _ _ _ Er) as [rows [Hrows [Hall [Hidx [Hlen [Hch [Hd Hc]]]]]]].
    eexists (_ :: rows). rewrite Hrows. cbn [insert_chunk document_chunks].
    rewrite <- List.app_assoc. split; [reflexivity|].
    split; [constructor; [split; reflexivity | exact Hall]|].
    split; [cbn [map chk_chunk_index]; rewrite Ei, Hidx; reflexivity|].
    split; [cbn [List.length]; now rewrite Hlen|].
    split; [constructor; [exists i; cbn [c_chunk_index c_vector_id]; split; [exact Ei | reflexivity] | exact Hch]|].
    rewrite Hd, Hc. split; reflexivity.
Qed.

(** When the loop raises, it is a chunk without [chunk_index] or without
    [text]. *)
Lemma save_chunks_raises (document_id : Z) (chunks : list chunk) :
  forall (conn : database) (e : exn),
    save_chunks document_id chunks conn = Raise e ->
    exists c, In c chunks /\ (c_chunk_index c = None \/ c_text c = None).
Proof.
  induction chunks as [|c rest IH]; intros conn e H; [discriminate|].
  cbn [save_chunks] in H.
  destruct (c_chunk_index c) as [i|] eqn:Ei;
    [|exists c; split; [now left | now left]].
  cbn [getitem bind_result set_vector_id c_text] in H.
  destruct (c_text c) as [text|] eqn:Et;
    [|exists c; split; [now left | now right]].
  cbn [getitem bind_result] in H.
  destruct (save_chunks document_id rest _) as [[rest' conn'']|e'] eqn:Er;
    [discriminate|].
  destruct (IH _ _ Er) as [c' [Hin Hc']]. exists c'. split; [now right | exact Hc'].
Qed.

(** [ingest_document] with both services up, step by step: the 500 of each
    step that can raise, and the world it leaves. *)
Lemma ingest_document_unfold {VS : Type} (services : Services VS)
  (dp : DocumentProcessor) (vs : VectorStore VS)
  (doc : DocumentIngestRequest) (w : world VS) :
  document_processor services = Some dp ->
  vector_store services = Some vs ->
  ingest_document services doc w =
    let failed := fun (e : exn) (w' : world VS) =>
      (HTTPException 500 (py "Error ingesting document: " ++ str_of_exn e), w') in
    let document_id := seq_documents (db w) + 1 in
    match process_document dp (ing_content doc) (ing_title doc) (ing_type doc)
            (ing_source doc) with
    | Raise e => failed e w
    | Return chunks =>
        match embed_chunks dp chunks with
        | Raise e => failed e w
        | Return embedded =>
            match save_chunks document_id embedded
                    (fst (insert_document (ing_title doc) (ing_content doc)
                            (ing_type doc) (ing_source doc) (db w))) with
            | Raise e => failed e w
            | Return (saved, conn) =>
                match add_documents vs saved document_id (index w) with
                | (Raise e, i') =>
                    failed e {| db := conn; index := i'; trace := trace w |}
                | (Return _, i') =>
                    (Ok {| ir_document_id := document_id;
                           ir_title := ing_title doc;
                           ir_chunks_created := Z.of_nat (List.length saved);
                           ir_status := py "success" |},
                     {| db := conn; index := i'; trace := trace w |})
                end
            end
        end
    end.
Proof.
  intros Hdp Hvs. unfold ingest_document. rewrite Hdp, Hvs.
  unfold except_500, bind, lift, get_db_connection, commit, on_index, ret.
  cbv zeta.
  destruct (process_document dp _ _ _ _) as [chunks|e]; [|reflexivity].
  destruct (embed_chunks dp chunks) as [embedded|e]; [|reflexivity].
  cbn [insert_document fst].
  destruct (save_chunks _ embedded _) as [[saved conn]|e]; [|reflexivity].
  cbn [set_db index db trace].
  destruct (add_documents vs saved _ (index w)) as [[[]|e] i']; reflexivity.
Qed.

(** C2 (as amended). With the processor and the vector store available, a
    failed ingestion raises [HTTPException(500, "Error ingesting document: "
    + str(e))].  The database is as before whenever the error was raised
    before the commit (by [process_document], by [embed_chunks], or in the
    chunk loop); the only failure that finds the database changed is one
    raised by the vector store's [add_documents], which is called after the
    commit. *)
Theorem ingest_failure_database {VS : Type} (services : Services VS)
  (dp : DocumentProcessor) (vs : VectorStore VS)
  (doc : DocumentIngestRequest) (w w' : world VS)
  (status_code : Z) (detail : str) :
  document_processor services = Some dp ->
  vector_store services = Some vs ->
  ingest_document services doc w = (HTTPException status_code detail, w') ->
  status_code = 500 /\
  (exists e, detail = py "Error ingesting document: " ++ str_of_exn e) /\
  (w' = w \/
   exists saved e i',
     add_documents vs saved (seq_documents (db w) + 1) (index w) = (Raise e, i') /\
     detail = py "Error ingesting document: " ++ str_of_exn e).
Proof.
  intros Hdp Hvs. rewrite (ingest_document_unfold services dp vs doc w Hdp Hvs).
  cbv zeta.
  destruct (process_document dp _ _ _ _) as [chunks|e].
  2:{ intros H; injection H as <- <- <-. split; [reflexivity|].
      split; [now exists e | now left]. }
  destruct (embed_chunks dp chunks) as [embedded|e].
  2:{ intros H; injection H as <- <- <-. split; [reflexivity|].
      split; [now exists e | now left]. }
  destruct (save_chunks _ embedded _) as [[saved conn]|e].
  2:{ intros H; injection H as <- <- <-. split; [reflexivity|].
      split; [now exists e | now left]. }
  destruct (add_documents vs saved _ (index w)) as [[[]|e] i'] eqn:Ea;
    [discriminate|].
  intros H; injection H as <- <- <-. split; [reflexivity|].
  split; [now exists e|]. right. now exists saved, e, i'.
Qed.

Lemma ingest_failure_database_witness :
  500 = 500 /\
  (exists e,
      py "Error ingesting document: " ++ py "embedding failed"
      = py "Error ingesting document: " ++ str_of_exn e) /\
  (@Fixtures.fresh VectorIndex.state [] = Fixtures.fresh [] \/
   exists saved e i',
     add_documents (VectorIndex.store Fixtures.closeness) saved
       (seq_documents (db (@Fixtures.fresh VectorIndex.state [])) + 1)
       (index (@Fixtures.fresh VectorIndex.state [])) = (Raise e, i') /\
     py "Error ingesting document: " ++ py "embedding failed"
     = py "Error ingesting document: " ++ str_of_exn e).
Proof.
  exact (ingest_failure_database Fixtures.embedder_down
           Fixtures.failing_processor
           (VectorIndex.store Fixtures.closeness) Fixtures.guide
           (Fixtures.fresh []) (Fixtures.fresh []) 500
           (py "Error ingesting document: " ++ py "embedding failed")
           eq_refl eq_refl eq_refl).
Defined.

(** C2 (as stated) fails: when the vector store cannot be reached, the
    request fails with the 500, and the document and its chunk are in the
    database all the same. *)
Lemma ingest_failure_after_commit :
  fst (ingest_document Fixtures.store_unreachable Fixtures.guide
         (Fixtures.fresh tt))
  = HTTPException 500 (py "Error ingesting document: Connection refused") /\
  documents (db (snd (ingest_document Fixtures.store_unreachable Fixtures.guide
                        (Fixtures.fresh tt))))
  = [{| doc_id := 1; doc_title := py "Guide";
        doc_content := py "Harran, koni evleriyle ünlü antik şehir";
        doc_type := py "general"; doc_source := None |}] /\
  document_chunks
    (db (snd (ingest_document Fixtures.store_unreachable Fixtures.guide
                (Fixtures.fresh tt))))
  = [{| chk_id := 1; chk_document_id := 1;
        chk_chunk_text := py "Harran, koni evleriyle ünlü antik şehir";
        chk_chunk_index := 0; chk_vector_id := py "1_0" |}] /\
  db (snd (ingest_document Fixtures.store_unreachable Fixtures.guide
             (Fixtures.fresh tt)))
  <> db (Fixtures.fresh tt).
Proof.
  split; [vm_compute; reflexivity|].
  split; [vm_compute; reflexivity|].
  split; [vm_compute; reflexivity|].
  intros H. apply (f_equal seq_documents) in H. vm_compute in H. discriminate.
Qed.

(** The loop makes one row per chunk, in order: the row holds the chunk's
    index and text, the document id and the vector id made of the two
    numbers, and the chunk leaves the loop carrying that vector id. *)
Lemma save_chunks_rows (document_id : Z) (chunks : list chunk) :
  forall (conn conn' : database) (saved : list chunk),
    save_chunks document_id chunks conn = Return (saved, conn') ->
    exists rows,
      document_chunks conn' = document_chunks conn ++ rows /\
      Forall2 (fun c r =>
                 c_chunk_index c = Some (chk_chunk_index r) /\
                 c_text c = Some (chk_chunk_text r) /\
                 chk_document_id r = document_id /\
                 chk_vector_id r = vector_id_of document_id (chk_chunk_index r))
              chunks rows /\
      Forall2 (fun c c' => c' = set_vector_id
                                  (vector_id_of document_id
                                     (get_or (c_chunk_index c) 0)) c)
              chunks saved /\
      Forall2 (fun c' r => c_vector_id c' = Some (chk_vector_id r)) saved rows.
Proof.
  induction chunks as [|c rest IH]; intros conn conn' saved H.
  - injection H as <- <-. exists []. rewrite List.app_nil_r.
    repeat split; constructor.
  - cbn [save_chunks] in H.
    destruct (c_chunk_index c) as [i|] eqn:Ei; [|discriminate].
    cbn [getitem bind_result set_vector_id c_text] in H.
    destruct (c_text c) as [text|] eqn:Et; [|discriminate].
    cbn [getitem bind_result] in H.
    destruct (save_chunks document_id rest _) as [[rest' conn'']|e] eqn:Er;
      [|discriminate].
    cbn [bind_result fst snd] in H. injection H as <- <-.
    destruct (IH _ _ _ Er) as (rows & Hrows & Hrel & Hsaved & Hids).
    eexists (_ :: rows). rewrite Hrows. cbn [insert_chunk document_chunks].
    rewrite <- List.app_assoc. split; [reflexivity|].
    split; [constructor; [repeat split; assumption | exact Hrel]|].
    split; [constructor; [now rewrite Ei | exact Hsaved]|].
    constructor; [reflexivity | exact Hids].
Qed.

(** C6. After a successful ingestion every chunk that the processor made
    has its row, in order: the row holds the chunk's index and text, belongs
    to the new document, and its [vector_id] is the text
    ["{document_id}_{chunk_index}"] of the document's id and the chunk's
    index; the chunk goes to the vector store with the same [vector_id].
    Two different (document id, chunk index) pairs never give the same
    vector id. *)
Theorem vector_id_derived_and_distinct {VS : Type} (services : Services VS)
  (dp : DocumentProcessor) (vs : VectorStore VS)
  (doc : DocumentIngestRequest) (w w' : world VS)
  (resp : DocumentIngestResponse) (chunks embedded : list chunk) :
  document_processor services = Some dp ->
  vector_store services = Some vs ->
  process_document dp (ing_content doc) (ing_title doc) (ing_type doc)
    (ing_source doc) = Return chunks ->
  embed_chunks dp chunks = Return embedded ->
  ingest_document services doc w = (Ok resp, w') ->
  (exists rows saved,
      document_chunks (db w') = document_chunks (db w) ++ rows /\
      Forall2 (fun c r =>
                 c_chunk_index c = Some (chk_chunk_index r) /\
                 c_text c = Some (chk_chunk_text r) /\
                 chk_document_id r = ir_document_id resp /\
                 chk_vector_id r
                 = str_of_int (ir_document_id resp) ++ py "_"
                   ++ str_of_int (chk_chunk_index r))
              embedded rows /\
      add_documents vs saved (ir_document_id resp) (index w)
      = (Return tt, index w') /\
      Forall2 (fun c c' => c' = set_vector_id
                                  (vector_id_of (ir_document_id resp)
                                     (get_or (c_chunk_index c) 0)) c)
              embedded saved /\
      Forall2 (fun c' r => c_vector_id c' = Some (chk_vector_id r)) saved rows /\
      ir_chunks_created resp = Z.of_nat (List.length embedded)) /\
  (forall d1 c1 d2 c2 : Z,
      (d1, c1) <> (d2, c2) -> vector_id_of d1 c1 <> vector_id_of d2 c2).
Proof.
  intros Hdp Hvs Hp He H. split.
  - rewrite (ingest_document_unfold services dp vs doc w Hdp Hvs) in H.
    cbv zeta in H. rewrite Hp, He in H.
    destruct (save_chunks _ embedded _) as [[saved conn]|e] eqn:Es; [|discriminate].
    destruct (add_documents vs saved _ (index w)) as [[[]|e] i'] eqn:Ea;
      [|discriminate].
    injection H as <- <-.
    destruct (save_chunks_rows _ _ _ _ _ Es) as (rows & Hrows & Hrel & Hsaved & Hids).
    exists rows, saved. cbn [db index ir_chunks_created ir_document_id].
    split; [exact Hrows|]. split; [exact Hrel|]. split; [exact Ea|].
    split; [exact Hsaved|]. split; [exact Hids|].
    f_equal. symmetry. eapply Forall2_length. exact Hsaved.
  - intros d1 c1 d2 c2 Hne Heq. apply vector_id_of_inj in Heq.
    destruct Heq as [-> ->]. now apply Hne.
Qed.

Lemma vector_id_derived_and_distinct_witness :
  exists rows saved,
    document_chunks (db Fixtures.after_guide)
    = document_chunks (db (@Fixtures.fresh VectorIndex.state [])) ++ rows /\
    List.length rows = 1%nat /\
    Forall2 (fun c' r => c_vector_id c' = Some (chk_vector_id r)) saved rows.
Proof.
  destruct (vector_id_derived_and_distinct Fixtures.all_up
              Fixtures.one_chunk_processor
              (VectorIndex.store Fixtures.closeness) Fixtures.guide
              (@Fixtures.fresh VectorIndex.state []) Fixtures.after_guide
              _ _ _ eq_refl eq_refl eq_refl eq_refl (surjective_pairing _))
    as [(rows & saved & Hrows & Hrel & _ & _ & Hids & _) _].
  exists rows, saved. split; [exact Hrows|]. split; [|exact Hids].
  symmetry. exact (Forall2_length Hrel).
Defined.

(* ================================================================== *)
(** * Search and recommendations *)
(* ================================================================== *)

Section IndexSearch.

Lemma insert_desc_length (x : SearchResult) (l : list SearchResult) :
  List.length (VectorIndex.insert_desc x l) = S (List.length l).
Proof.
  induction l as [|y ys IH]; cbn [VectorIndex.insert_desc]; [reflexivity|].
  destruct (Qle_bool (res_score y) (res_score x)); cbn [List.length];
    [reflexivity | now rewrite IH].
Qed.

Lemma insert_desc_in (x z : SearchResult) (l : list SearchResult) :
  In z (VectorIndex.insert_desc x l) -> z = x \/ In z l.
Proof.
  induction l as [|y ys IH]; cbn [VectorIndex.insert_desc].
  - intros [<-|[]]. now left.
  - destruct (Qle_bool (res_score y) (res_score x)).
    + intros [<-|H]; [now left | now right].
    + intros [<-|H]; [right; now left|].
      destruct (IH H) as [->|H']; [now left | right; now right].
Qed.

Lemma insert_desc_sorted (x : SearchResult) (l : list SearchResult) :
  StronglySorted by_score_desc l ->
  StronglySorted by_score_desc (VectorIndex.insert_desc x l).
Proof.
  induction 1 as [|y ys Hs IH Hall]; cbn [VectorIndex.insert_desc].
  - constructor; constructor.
  - destruct (Qle_bool (res_score y) (res_score x)) eqn:E.
    + apply Qle_bool_iff in E. constructor.
      * now constructor.
      * constructor; [exact E|].
        rewrite Forall_forall in Hall |- *. intros z Hz.
        unfold by_score_desc in *. eapply Qle_trans; [apply (Hall z Hz) | exact E].
    + constructor; [exact IH|].
      rewrite Forall_forall in Hall |- *. intros z Hz.
      apply insert_desc_in in Hz. destruct Hz as [->|Hz]; [|now apply Hall].
      unfold by_score_desc. apply Qlt_le_weak, Qnot_le_lt.
      intros H. apply Qle_bool_iff in H. congruence.
Qed.

Lemma sort_desc_sorted (l : list SearchResult) :
  StronglySorted by_score_desc (VectorIndex.sort_desc l).
Proof.
  induction l as [|x l IH]; [constructor|].
  change (VectorIndex.sort_desc (x :: l))
    with (VectorIndex.insert_desc x (VectorIndex.sort_desc l)).
  now apply insert_desc_sorted.
Qed.

Lemma sort_desc_length (l : list SearchResult) :
  List.length (VectorIndex.sort_desc l) = List.length l.
Proof.
  induction l as [|x l IH]; [reflexivity|].
  change (VectorIndex.sort_desc (x :: l))
    with (VectorIndex.insert_desc x (VectorIndex.sort_desc l)).
  rewrite insert_desc_length, IH. reflexivity.
Qed.

Lemma firstn_incl (n : nat) (l : list SearchResult) (z : SearchResult) :
  In z (firstn n l) -> In z l.
Proof.
  revert n. induction l as [|y ys IH]; intros [|n]; cbn; try tauto.
  intros [<-|H]; [now left | right; now apply (IH n)].
Qed.

Lemma firstn_sorted (n : nat) (l : list SearchResult) :
  StronglySorted by_score_desc l -> StronglySorted by_score_desc (firstn n l).
Proof.
  intros H. revert n. induction H as [|y ys Hs IH Hall]; intros [|n]; cbn;
    try constructor; [apply IH|].
  rewrite Forall_forall in Hall |- *. intros z Hz. apply Hall.
  now apply (firstn_incl n ys).
Qed.

Variable similarity : embedding -> embedding -> float.

(** The index's search: at most [limit] results, best first. *)
Lemma index_search_spec (query_vector : embedding) (limit : Z)
  (f : option filter_dict) (st : VectorIndex.state) :
  (Z.of_nat (List.length (VectorIndex.index_search similarity query_vector limit f st))
   <= Z.max 0 limit) /\
  StronglySorted by_score_desc
    (VectorIndex.index_search similarity query_vector limit f st).
Proof.
  unfold VectorIndex.index_search. split.
  - rewrite length_firstn. lia.
  - apply firstn_sorted, sort_desc_sorted.
Qed.

End IndexSearch.

(** The count a search response reports is the length of its result list,
    whatever object stands for the vector store. *)
Lemma search_documents_count {VS : Type} (services : Services VS)
  (rq : DocumentSearchRequest) (w w' : world VS) (resp : DocumentSearchResponse) :
  search_documents services rq w = (Ok resp, w') ->
  srs_count resp = Z.of_nat (List.length (srs_results resp)) /\
  srs_query resp = sr_query rq /\ w' = w.
Proof.
  unfold search_documents.
  destruct (document_processor services) as [dp|]; [|discriminate].
  destruct (vector_store services) as [vs|]; [|discriminate].
  unfold except_500, bind, lift, read_index, ret.
  destruct (embed_text dp (sr_query rq)) as [v|e]; [|discriminate].
  destruct (search vs v (sr_top_k rq) _ (index w)) as [results|e]; [|discriminate].
  intros H. injection H as <- <-. repeat split.
Qed.

(** C7. For a search request that passed validation ([top_k] between 1 and
    50, 5 when absent), run against the vector index: the response's [count]
    is the number of entries of [results], there are at most [top_k] of them,
    and they come in non-increasing score order. *)
Theorem search_count_bound_order (similarity : embedding -> embedding -> float)
  (services : Services VectorIndex.state)
  (query : str) (top_k : option Z) (filter_type : option str)
  (rq : DocumentSearchRequest)
  (w w' : world VectorIndex.state) (resp : DocumentSearchResponse) :
  vector_store services = Some (VectorIndex.store similarity) ->
  DocumentSearchRequest_validate query top_k filter_type = Some rq ->
  search_documents services rq w = (Ok resp, w') ->
  sr_top_k rq = match top_k with Some k => k | None => 5 end /\
  1 <= sr_top_k rq <= 50 /\
  srs_count resp = Z.of_nat (List.length (srs_results resp)) /\
  srs_count resp <= sr_top_k rq /\
  StronglySorted by_score_desc (srs_results resp).
Proof.
  intros Hvs Hval Hrun.
  assert (Hk : sr_top_k rq = match top_k with Some k => k | None => 5 end /\
               1 <= sr_top_k rq <= 50).
  { unfold DocumentSearchRequest_validate in Hval.
    destruct ((1 <=? _) && (_ <=? 50)) eqn:E; [|discriminate].
    injection Hval as <-. cbn [sr_top_k].
    apply andb_true_iff in E. destruct E as [E1 E2].
    apply Z.leb_le in E1, E2. auto. }
  destruct Hk as [Hk Hrange]. split; [exact Hk|]. split; [exact Hrange|].
  destruct (search_documents_count services rq w w' resp Hrun) as [Hcount _].
  split; [exact Hcount|].
  unfold search_documents in Hrun. rewrite Hvs in Hrun.
  destruct (document_processor services) as [dp|]; [|discriminate].
  unfold except_500, bind, lift, read_index, ret in Hrun.
  destruct (embed_text dp (sr_query rq)) as [v|e]; [|discriminate].
  cbn [search VectorIndex.store] in Hrun. injection Hrun as <- <-.
  cbn [srs_count srs_results].
  destruct (index_search_spec similarity v (sr_top_k rq)
              match sr_filter_type rq with
              | Some (c :: t) => Some [("type"%string, c :: t)]
              | _ => None
              end (index w)) as [Hlen Hsorted].
  split; [eapply Z.le_trans; [exact Hlen | lia] | exact Hsorted].
Qed.

Lemma search_count_bound_order_witness :
  exists resp w',
    search_documents Fixtures.all_up
      {| sr_query := py "Urfa"; sr_top_k := 2; sr_filter_type := None |}
      Fixtures.indexed = (Ok resp, w') /\
    map res_text (srs_results resp) = [py "Harran"; py "Urfa"] /\
    srs_count resp <= 2 /\
    StronglySorted by_score_desc (srs_results resp).
Proof.
  eexists. eexists. split; [reflexivity|].
  split; [vm_compute; reflexivity|].
  pose proof (search_count_bound_order Fixtures.closeness Fixtures.all_up
                (py "Urfa") (Some 2) None _ Fixtures.indexed _ _
                eq_refl eq_refl eq_refl) as H.
  split; [apply H | apply H].
Defined.

(** C8. Every recommendation that [get_recommendations] returns carries the
    match score 0.85: the score is the same constant for every request and
    every fetched row, whatever the interests and the row's tags are. *)
Theorem recommendations_constant_score {VS : Type}
  (sqlite_fetchall : str -> database -> result (list destination_row))
  (request : RecommendationRequest) (w w' : world VS)
  (resp : RecommendationResponse) :
  get_recommendations sqlite_fetchall request w = (Return resp, w') ->
  Forall (fun r => rec_match_score r = 0.85%Q) (rr_recommendations resp) /\
  (forall row : destination_row,
      rec_match_score (recommendation_of_row row) = 0.85%Q).
Proof.
  unfold get_recommendations, bind, get_db_connection, lift, ret.
  destruct (sqlite_fetchall _ (db w)) as [rows|e]; [|discriminate].
  intros H. injection H as <- _. cbn [rr_recommendations]. split.
  - apply Forall_forall. intros r Hr. apply in_map_iff in Hr.
    destruct Hr as [row [<- _]]. reflexivity.
  - reflexivity.
Qed.

Lemma recommendations_constant_score_witness :
  Forall (fun r => rec_match_score r = 0.85%Q)
    (rr_recommendations
       {| rr_recommendations := [recommendation_of_row Fixtures.gobeklitepe_row];
          rr_user_id := py "user123" |}).
Proof.
  exact (proj1 (recommendations_constant_score
                  (Fixtures.fetch_rows [Fixtures.gobeklitepe_row])
                  {| rq_user_id := py "user123";
                     rq_interests := [py "mutfak"];
                     rq_max_results := 5 |}
                  (Fixtures.fresh tt) (Fixtures.fresh tt) _ eq_refl)).
Defined.

(* ================================================================== *)
(** * Tags: splitting and joining *)
(* ================================================================== *)

Section SplitJoin.

Variable sep : char.

Lemma split_aux_nonempty (cur s : str) : split_aux sep cur s <> [].
Proof.
  revert cur. induction s as [|c s IH]; intros cur; cbn [split_aux];
    [discriminate|].
  destruct (c =? sep)%N; [discriminate | apply IH].
Qed.

Lemma join_cons (p : str) (rest : list str) :
  rest <> [] -> join [sep] (p :: rest) = p ++ [sep] ++ join [sep] rest.
Proof. destruct rest; [congruence | reflexivity]. Qed.

Lemma join_split_aux (cur s : str) :
  join [sep] (split_aux sep cur s) = rev cur ++ s.
Proof.
  revert cur. induction s as [|c s IH]; intros cur; cbn [split_aux].
  - cbn [join]. now rewrite List.app_nil_r.
  - destruct (c =? sep)%N eqn:E.
    + apply N.eqb_eq in E. subst c.
      rewrite join_cons by apply split_aux_nonempty.
      rewrite IH. reflexivity.
    + rewrite IH. cbn [rev]. now rewrite <- List.app_assoc.
Qed.

Lemma split_aux_fields (cur s : str) :
  ~ In sep cur -> Forall (fun f => ~ In sep f) (split_aux sep cur s).
Proof.
  revert cur. induction s as [|c s IH]; intros cur Hcur; cbn [split_aux].
  - constructor; [|constructor]. now rewrite <- in_rev.
  - destruct (c =? sep)%N eqn:E.
    + constructor; [now rewrite <- in_rev | apply IH; intros []].
    + apply IH. intros [->|H]; [|now apply Hcur].
      now rewrite N.eqb_refl in E.
Qed.

Lemma split_aux_length (cur s : str) :
  List.length (split_aux sep cur s)
  = S (List.length (filter (fun c => (c =? sep)%N) s)).
Proof.
  revert cur. induction s as [|c s IH]; intros cur; cbn [split_aux filter];
    [reflexivity|].
  destruct (c =? sep)%N; cbn [List.length]; now rewrite IH.
Qed.

End SplitJoin.

(** X1. The tags of a destination are the fields of the stored text between
    its commas: joining them with commas gives the stored text back, no tag
    holds a comma, and there is one tag more than there are commas.  A row
    whose tags are NULL or the empty text has no tags at all (not the one
    empty tag that splitting the empty text would give).  The
    recommendations are built the same way. *)
Theorem destination_tags_round_trip (row : destination_row) :
  (dest_tags row = None \/ dest_tags row = Some [] ->
   out_tags (destination_of_row row) = []) /\
  (forall tags : str,
      dest_tags row = Some tags -> tags <> [] ->
      join (py ",") (out_tags (destination_of_row row)) = tags /\
      Forall comma_free (out_tags (destination_of_row row)) /\
      List.length (out_tags (destination_of_row row))
      = S (List.length (filter (fun c => (c =? 44)%N) tags))) /\
  rec_tags (recommendation_of_row row) = out_tags (destination_of_row row).
Proof.
  split; [|split].
  - intros [H|H]; cbn [destination_of_row out_tags]; now rewrite H.
  - intros tags H Hne. cbn [destination_of_row out_tags]. rewrite H.
    destruct tags as [|c t]; [congruence|]. unfold split.
    change (py ",") with [44%N].
    split; [apply (join_split_aux 44%N [] (c :: t))|].
    split; [apply split_aux_fields; intros [] | apply split_aux_length].
  - reflexivity.
Qed.

Lemma destination_tags_round_trip_witness :
  join (py ",") (out_tags (destination_of_row Fixtures.gobeklitepe_row))
  = py "tarih,arkeoloji,unesco" /\
  List.length (out_tags (destination_of_row Fixtures.gobeklitepe_row)) = 3%nat.
Proof.
  destruct (proj1 (proj2 (destination_tags_round_trip Fixtures.gobeklitepe_row))
              (py "tarih,arkeoloji,unesco") eq_refl)
    as [H1 [_ H3]].
  - intros H. vm_compute in H. discriminate.
  - split; [exact H1 | rewrite H3; vm_compute; reflexivity].
Defined.

(* ================================================================== *)
(** * The destination endpoints *)
(* ================================================================== *)

Lemma text_eqb_eq (a b : str) : text_eqb a b = true <-> a = b.
Proof.
  unfold text_eqb. destruct (list_eq_dec N.eq_dec a b); split; intros H;
    try reflexivity; try assumption; try discriminate; contradiction.
Qed.



(** X3. [get_destination_detail] changes nothing.  For an id that SQLite
    can bind (a signed 64-bit integer) it raises the 404 "Destination not
    found" exactly when no row of the table has the id, and otherwise
    answers with a row of the table that has the id.  For any other id the
    query itself raises [OverflowError], which is no [HTTPException]: the
    answer is then not a 404. *)
Theorem get_destination_detail_not_found {VS : Type} (destination_id : Z)
  (w : world VS) :
  snd (get_destination_detail destination_id w) = w /\
  (sqlite_int_ok destination_id = true ->
   (exists r, fst (get_destination_detail destination_id w) = Return r) /\
   (fst (get_destination_detail destination_id w)
    = Return (HTTPException 404 (py "Destination not found")) <->
    forall row, In row (destinations (db w)) -> dest_id row <> destination_id) /\
   (forall d : DestinationOut,
       fst (get_destination_detail destination_id w) = Return (Ok d) ->
       out_id d = destination_id /\
       exists row, In row (destinations (db w)) /\ d = destination_of_row row)) /\
  (sqlite_int_ok destination_id = false ->
   fst (get_destination_detail destination_id w)
   = Raise (Exception
              (py "Python int too large to convert to SQLite INTEGER"))).
Proof.
  unfold get_destination_detail, select_destination_where_id, bind_int,
    bind, get_db_connection, lift, ret.
  destruct (sqlite_int_ok destination_id); cbn [bind_result].
  - destruct (find _ (destinations (db w))) as [row|] eqn:E; cbn [fst snd].
    + apply find_some in E. destruct E as [Hin Hid]. apply Z.eqb_eq in Hid.
      split; [reflexivity|]. split; [|discriminate]. intros _.
      split; [eexists; reflexivity|]. split.
      * split; [discriminate|]. intros H. now contradiction (H row Hin).
      * intros d H. injection H as <-. split; [exact Hid | now exists row].
    + split; [reflexivity|]. split; [|discriminate]. intros _.
      split; [eexists; reflexivity|]. split.
      * split; [|reflexivity]. intros _ row Hin Hid.
        pose proof (find_none _ _ E row Hin) as Hn. cbn beta in Hn.
        apply Z.eqb_neq in Hn. now apply Hn.
      * discriminate.
  - cbn [fst snd]. split; [reflexivity|]. split; [discriminate|]. reflexivity.
Qed.

Lemma get_destination_detail_not_found_witness :
  fst (get_destination_detail 9 Fixtures.with_destinations)
  = Return (HTTPException 404 (py "Destination not found")) /\
  fst (get_destination_detail (2 ^ 63) Fixtures.with_destinations)
  = Raise (Exception (py "Python int too large to convert to SQLite INTEGER")).
Proof.
  split.
  - apply (proj2 (proj1 (proj2 (proj1 (proj2 (get_destination_detail_not_found 9
                                                Fixtures.with_destinations))
                                  eq_refl)))).
    intros row [<-|[<-|[]]]; vm_compute; discriminate.
  - exact (proj2 (proj2 (get_destination_detail_not_found (2 ^ 63)
                           Fixtures.with_destinations)) eq_refl).
Defined.

(* ================================================================== *)
(** * More on search, deletion and ingestion *)
(* ================================================================== *)

(** X4. [search_documents] reads only: whatever it answers, the database, the
    index and the trace are as before.  It answers 503 "Search service
    unavailable" exactly when the document processor or the vector store is
    missing; a failure of the embedding or of the store's search is a 500
    that carries the error's text. *)
Theorem search_documents_read_only {VS : Type} (services : Services VS)
  (rq : DocumentSearchRequest) (w : world VS) :
  snd (search_documents services rq w) = w /\
  (fst (search_documents services rq w)
   = HTTPException 503 (py "Search service unavailable") <->
   document_processor services = None \/ vector_store services = None) /\
  (forall status_code detail,
      fst (search_documents services rq w) = HTTPException status_code detail ->
      status_code = 503 \/
      exists e, status_code = 500 /\
                detail = py "Error searching documents: " ++ str_of_exn e).
Proof.
  unfold search_documents.
  destruct (document_processor services) as [dp|].
  2:{ cbn [fst snd]. split; [reflexivity|]. split.
      - split; [now left | reflexivity].
      - intros ? ? H. injection H as <- _. now left. }
  destruct (vector_store services) as [vs|].
  2:{ cbn [fst snd]. split; [reflexivity|]. split.
      - split; [now right | reflexivity].
      - intros ? ? H. injection H as <- _. now left. }
  unfold except_500, bind, lift, read_index, ret.
  destruct (embed_text dp (sr_query rq)) as [v|e]; cbn [fst snd].
  - destruct (search vs v (sr_top_k rq) _ (index w)) as [results|e];
      cbn [fst snd]; (split; [reflexivity|]); split.
    + split; [discriminate | intros [H|H]; discriminate].
    + discriminate.
    + split; [discriminate | intros [H|H]; discriminate].
    + intros ? ? H. injection H as <- <-. right. now exists e.
  - split; [reflexivity|]. split.
    + split; [discriminate | intros [H|H]; discriminate].
    + intros ? ? H. injection H as <- <-. right. now exists e.
Qed.

Lemma filter_negb_eqb_id {A : Type} (key : A -> Z) (k : Z) (l : list A) :
  (forall r, In r l -> key r <> k) ->
  filter (fun r => negb (key r =? k)) l = l.
Proof.
  induction l as [|a l IH]; intros H; [reflexivity|]. cbn [filter].
  destruct (key a =? k) eqn:E.
  - apply Z.eqb_eq in E. exfalso. apply (H a); [now left | exact E].
  - cbn [negb]. f_equal. apply IH. intros r Hr. apply H. now right.
Qed.

Lemma in_filter_negb_eqb {A : Type} (key : A -> Z) (k : Z) (l : list A) (r : A) :
  In r (filter (fun r => negb (key r =? k)) l) <-> In r l /\ key r <> k.
Proof.
  rewrite filter_In, negb_true_iff, Z.eqb_neq. reflexivity.
Qed.

(** [delete_document] once the vector store's delete has returned, for an
    id that SQLite can bind. *)
Lemma delete_document_returns {VS : Type} (services : Services VS)
  (vs : VectorStore VS) (id : Z) (w : world VS) (i' : VS) :
  vector_store services = Some vs ->
  vs_delete_document vs id (index w) = (Return tt, i') ->
  sqlite_int_ok id = true ->
  delete_document services id w
  = (Ok {| del_document_id := id; del_status := py "deleted" |},
     {| db := delete_document_row id (delete_chunks_of id (db w));
        index := i'; trace := trace w |}).
Proof.
  intros Hvs Hdel Hid. unfold delete_document. rewrite Hvs.
  unfold except_500, bind, on_index, get_db_connection, commit, ret, lift,
    bind_int.
  rewrite Hdel, Hid. reflexivity.
Qed.

(** X5. A deletion whose vector-store delete has returned, for an id that
    SQLite can bind (a signed 64-bit integer): the answer is
    [{document_id, status: "deleted"}]; the document's row and every chunk
    row of the document are gone and nothing else is: the other rows of both
    tables stay, and every other table and every counter is as before.
    There is no "not found": for an id that no row names the answer is the
    same and the database is unchanged.  For an id that SQLite cannot bind,
    the [DELETE] raises after the vector store has already deleted: the
    answer is a 500 and the database is unchanged. *)
Theorem delete_document_removes_rows {VS : Type} (services : Services VS)
  (vs : VectorStore VS) (id : Z) (w : world VS) (i' : VS) :
  vector_store services = Some vs ->
  vs_delete_document vs id (index w) = (Return tt, i') ->
  let w' := snd (delete_document services id w) in
  (sqlite_int_ok id = true ->
   fst (delete_document services id w)
   = Ok {| del_document_id := id; del_status := py "deleted" |} /\
   (forall r, In r (documents (db w')) <->
              In r (documents (db w)) /\ doc_id r <> id) /\
   (forall r, In r (document_chunks (db w')) <->
              In r (document_chunks (db w)) /\ chk_document_id r <> id) /\
   seq_documents (db w') = seq_documents (db w) /\
   seq_document_chunks (db w') = seq_document_chunks (db w) /\
   conversations (db w') = conversations (db w) /\
   seq_conversations (db w') = seq_conversations (db w) /\
   destinations (db w') = destinations (db w) /\
   itineraries (db w') = itineraries (db w) /\
   seq_itineraries (db w') = seq_itineraries (db w) /\
   routes (db w') = routes (db w) /\
   seq_routes (db w') = seq_routes (db w) /\
   ((forall r, In r (documents (db w)) -> doc_id r <> id) ->
    (forall r, In r (document_chunks (db w)) -> chk_document_id r <> id) ->
    db w' = db w)) /\
  (sqlite_int_ok id = false ->
   fst (delete_document services id w)
   = HTTPException 500
       (py "Error deleting document: "
        ++ py "Python int too large to convert to SQLite INTEGER") /\
   db w' = db w /\ index w' = i').
Proof.
  intros Hvs Hdel w'. subst w'. split.
  - intros Hid.
    rewrite (delete_document_returns services vs id w i' Hvs Hdel Hid).
    cbn [fst snd db]. split; [reflexivity|].
    split; [intros r; apply in_filter_negb_eqb|].
    split; [intros r; apply in_filter_negb_eqb|].
    repeat (split; [reflexivity|]).
    intros Hd Hc. unfold delete_document_row, delete_chunks_of.
    cbn [destinations conversations seq_conversations documents seq_documents
         document_chunks seq_document_chunks itineraries seq_itineraries
         routes seq_routes].
    rewrite (filter_negb_eqb_id doc_id id _ Hd).
    rewrite (filter_negb_eqb_id chk_document_id id _ Hc).
    now destruct (db w).
  - intros Hid. unfold delete_document. rewrite Hvs.
    unfold except_500, bind, on_index, get_db_connection, commit, ret, lift,
      bind_int.
    rewrite Hdel, Hid. cbn [fst snd set_index db index str_of_exn].
    repeat split.
Qed.

Lemma delete_document_removes_rows_witness :
  fst (delete_document Fixtures.all_up 1 Fixtures.after_guide)
  = Ok {| del_document_id := 1; del_status := py "deleted" |} /\
  seq_documents (db (snd (delete_document Fixtures.all_up 1 Fixtures.after_guide)))
  = 1 /\
  fst (delete_document Fixtures.all_up (2 ^ 63) Fixtures.after_guide)
  = HTTPException 500
      (py "Error deleting document: "
       ++ py "Python int too large to convert to SQLite INTEGER").
Proof.
  destruct (proj1 (delete_document_removes_rows Fixtures.all_up
                     (VectorIndex.store Fixtures.closeness) 1
                     Fixtures.after_guide _ eq_refl eq_refl) eq_refl)
    as [H1 [_ [_ [H2 _]]]].
  destruct (proj2 (delete_document_removes_rows Fixtures.all_up
                     (VectorIndex.store Fixtures.closeness) (2 ^ 63)
                     Fixtures.after_guide _ eq_refl eq_refl) eq_refl)
    as [H3 _].
  split; [exact H1|]. split; [|exact H3].
  rewrite H2. vm_compute. reflexivity.
Defined.

(** ** The chunk loop, row by row *)

(** What the loop does to the connection's copy: it appends the rows, with
    fresh consecutive keys, and moves the chunk counter; nothing else. *)
Lemma save_chunks_frame (document_id : Z) (chunks : list chunk) :
  forall (conn conn' : database) (chunks' : list chunk),
    save_chunks document_id chunks conn = Return (chunks', conn') ->
    exists rows,
      document_chunks conn' = document_chunks conn ++ rows /\
      seq_document_chunks conn'
      = seq_document_chunks conn + Z.of_nat (List.length rows) /\
      List.length rows = List.length chunks /\
      NoDup (map chk_id rows) /\
      Forall (fun r => seq_document_chunks conn < chk_id r
                       <= seq_document_chunks conn'
                       /\ chk_document_id r = document_id
                       /\ chk_vector_id r
                          = vector_id_of (chk_document_id r) (chk_chunk_index r))
             rows /\
      destinations conn' = destinations conn /\
      conversations conn' = conversations conn /\
      seq_conversations conn' = seq_conversations conn /\
      documents conn' = documents conn /\
      seq_documents conn' = seq_documents conn /\
      itineraries conn' = itineraries conn /\
      seq_itineraries conn' = seq_itineraries conn /\
      routes conn' = routes conn /\
      seq_routes conn' = seq_routes conn.
Proof.
  induction chunks as [|c rest IH]; intros conn conn' chunks' H.
  - injection H as <- <-. exists []. rewrite List.app_nil_r.
    cbn [List.length map Z.of_nat]. rewrite Z.add_0_r.
    repeat split; constructor.
  - cbn [save_chunks] in H.
    destruct (c_chunk_index c) as [i|] eqn:Ei; [|discriminate].
    cbn [getitem bind_result set_vector_id c_text] in H.
    destruct (c_text c) as [text|] eqn:Et; [|discriminate].
    cbn [getitem bind_result] in H.
    destruct (save_chunks document_id rest _) as [[rest' conn'']|e] eqn:Er;
      [|discriminate].
    cbn [bind_result fst snd] in H. injection H as <- <-.
    destruct (IH _ _ _ Er)
      as (rows & Hrows & Hseq & Hlen & Hnd & Hall & H1 & H2 & H3 & H4 & H5
          & H6 & H7 & H8 & H9).
    cbn [insert_chunk document_chunks seq_document_chunks destinations
         conversations seq_conversations documents seq_documents itineraries
         seq_itineraries routes seq_routes] in *.
    eexists (_ :: rows). rewrite Hrows, <- List.app_assoc.
    split; [reflexivity|].
    split; [rewrite Hseq; cbn [List.length]; lia|].
    split; [cbn [List.length]; now rewrite Hlen|].
    split.
    { cbn [map chk_id]. constructor; [|exact Hnd].
      intros Hin. apply in_map_iff in Hin. destruct Hin as [r [Hr Hin]].
      rewrite Forall_forall in Hall. destruct (Hall r Hin) as [[Hlt _] _]. lia. }
    split.
    { constructor.
      - cbn [chk_id chk_document_id chk_vector_id chk_chunk_index].
        split; [lia|]. split; reflexivity.
      - eapply Forall_impl; [|exact Hall]. cbn beta.
        intros r [[Hlt Hle] Hr]. split; [lia | exact Hr]. }
    repeat split; assumption.
Qed.

(** The loop raises exactly for a chunk dict that lacks [chunk_index] or
    [text], with the [KeyError] of that key. *)
Lemma save_chunks_missing_key (document_id : Z) (chunks : list chunk) :
  forall conn : database,
    (exists c, In c chunks /\ (c_chunk_index c = None \/ c_text c = None)) ->
    save_chunks document_id chunks conn = Raise (Exception (py "'chunk_index'"))
    \/ save_chunks document_id chunks conn = Raise (Exception (py "'text'")).
Proof.
  induction chunks as [|c rest IH]; intros conn [c0 [Hin Hc0]]; [destruct Hin|].
  cbn [save_chunks].
  destruct (c_chunk_index c) as [i|] eqn:Ei; [|left; reflexivity].
  cbn [getitem bind_result set_vector_id c_text].
  destruct (c_text c) as [text|] eqn:Et; [|right; reflexivity].
  cbn [getitem bind_result].
  destruct Hin as [<-|Hin]; [destruct Hc0; congruence|].
  destruct (IH (insert_chunk document_id text i (vector_id_of document_id i) conn)
              (ex_intro _ c0 (conj Hin Hc0))) as [H|H];
    rewrite H; [left | right]; reflexivity.
Qed.

(** X6. An ingestion that succeeds adds exactly one row to [documents], keyed
    by the id that the response reports (the next value of the table's
    counter) and holding the request's title, content, type and source;
    it adds [chunks_created] rows to [document_chunks]; the response repeats
    the title with status "success"; the other tables and the trace of
    generation calls are as before. *)
Theorem ingest_document_adds_rows {VS : Type} (services : Services VS)
  (doc : DocumentIngestRequest) (w w' : world VS)
  (resp : DocumentIngestResponse) :
  ingest_document services doc w = (Ok resp, w') ->
  ir_document_id resp = seq_documents (db w) + 1 /\
  seq_documents (db w') = ir_document_id resp /\
  documents (db w') =
    documents (db w) ++
      [{| doc_id := ir_document_id resp; doc_title := ing_title doc;
          doc_content := ing_content doc; doc_type := ing_type doc;
          doc_source := ing_source doc |}] /\
  (exists rows,
      document_chunks (db w') = document_chunks (db w) ++ rows /\
      Z.of_nat (List.length rows) = ir_chunks_created resp) /\
  ir_title resp = ing_title doc /\
  ir_status resp = py "success" /\
  conversations (db w') = conversations (db w) /\
  destinations (db w') = destinations (db w) /\
  itineraries (db w') = itineraries (db w) /\
  routes (db w') = routes (db w) /\
  trace w' = trace w.
Proof.
  intros H. unfold ingest_document in H.
  destruct (document_processor services) as [dp|] eqn:Hdp; [|discriminate].
  destruct (vector_store services) as [vs|] eqn:Hvs; [|discriminate].
  pose proof (ingest_document_unfold services dp vs doc w Hdp Hvs) as U.
  unfold ingest_document in U. rewrite Hdp, Hvs in U. rewrite U in H. clear U.
  cbv zeta in H.
  destruct (process_document dp _ _ _ _) as [chunks|e]; [|discriminate].
  destruct (embed_chunks dp chunks) as [embedded|e]; [|discriminate].
  destruct (save_chunks _ embedded _) as [[saved conn]|e] eqn:Es; [|discriminate].
  destruct (add_documents vs saved _ (index w)) as [[[]|e] i']; [|discriminate].
  injection H as <- <-.
  destruct (save_chunks_frame _ _ _ _ _ Es)
    as (rows & Hrows & _ & Hlen & _ & _ & H1 & H2 & _ & H4 & H5 & H6 & _ & H8 & _).
  destruct (save_chunks_spec _ _ _ _ _ Es) as (_ & _ & _ & _ & Hsaved & _).
  cbn [insert_document fst documents seq_documents destinations conversations
       itineraries routes document_chunks] in *.
  cbn [db trace ir_document_id ir_title ir_status ir_chunks_created].
  split; [reflexivity|]. split; [exact H5|]. split; [exact H4|].
  split; [exists rows; split; [exact Hrows | now rewrite Hlen, Hsaved]|].
  repeat split; assumption.
Qed.

Lemma ingest_document_adds_rows_witness :
  documents (db Fixtures.after_guide)
  = [{| doc_id := 1; doc_title := py "Guide";
        doc_content := py "Harran, koni evleriyle ünlü antik şehir";
        doc_type := py "general"; doc_source := None |}].
Proof.
  destruct (ingest_document_adds_rows Fixtures.all_up Fixtures.guide
              (@Fixtures.fresh VectorIndex.state []) Fixtures.after_guide _
              (surjective_pairing _)) as [_ [_ [H _]]].
  rewrite H. vm_compute. reflexivity.
Defined.



(* ================================================================== *)
(** * The invariant of the tables *)
(* ================================================================== *)

Section Keys.

Context {A : Type}.
Variable key : A -> Z.

Lemma keys_ok_app (c c' : Z) (rows new : list A) :
  keys_ok key c rows ->
  NoDup (map key new) ->
  Forall (fun r => c < key r <= c') new ->
  c <= c' ->
  keys_ok key c' (rows ++ new).
Proof.
  intros [Hnd Hle] Hnew Hrange Hcc. rewrite Forall_forall in Hle, Hrange.
  split.
  - rewrite map_app. apply NoDup_app; [exact Hnd | exact Hnew |].
    intros k Hk Hk'. apply in_map_iff in Hk, Hk'.
    destruct Hk as [r [<- Hr]], Hk' as [r' [Heq Hr']].
    specialize (Hle r Hr). specialize (Hrange r' Hr'). lia.
  - apply Forall_forall. intros r Hr. apply in_app_or in Hr.
    destruct Hr as [Hr|Hr]; [specialize (Hle r Hr) | specialize (Hrange r Hr)];
      lia.
Qed.

Lemma keys_ok_snoc (c : Z) (rows : list A) (r : A) :
  keys_ok key c rows -> key r = c + 1 -> keys_ok key (c + 1) (rows ++ [r]).
Proof.
  intros H Hr. apply (keys_ok_app c); [exact H | | | lia].
  - cbn. constructor; [intros [] | constructor].
  - constructor; [lia | constructor].
Qed.

Lemma NoDup_map_filter (f : A -> bool) (rows : list A) :
  NoDup (map key rows) -> NoDup (map key (filter f rows)).
Proof.
  induction rows as [|r rows IH]; intros H; [exact H|].
  cbn [map] in H. apply NoDup_cons_iff in H. destruct H as [Hr Hnd].
  cbn [filter]. destruct (f r); [|now apply IH].
  cbn [map]. constructor; [|now apply IH].
  intros Hin. apply Hr. apply in_map_iff in Hin.
  destruct Hin as [r' [Heq Hin]]. apply filter_In in Hin.
  apply in_map_iff. exists r'. split; [exact Heq | apply Hin].
Qed.

Lemma keys_ok_filter (f : A -> bool) (c : Z) (rows : list A) :
  keys_ok key c rows -> keys_ok key c (filter f rows).
Proof.
  intros [Hnd Hle]. split; [now apply NoDup_map_filter|].
  rewrite Forall_forall in *. intros r Hr. apply filter_In in Hr.
  now apply Hle.
Qed.

End Keys.

Lemma db_ok_insert_conversation (user_id message resp : str) (d : database) :
  db_ok d -> db_ok (insert_conversation user_id message resp d).
Proof.
  intros (H1 & H2 & H3 & H4 & H5 & H6). unfold db_ok, insert_conversation.
  cbn [conversations seq_conversations documents seq_documents document_chunks
       seq_document_chunks itineraries seq_itineraries routes seq_routes].
  split; [now apply keys_ok_snoc|].
  repeat (split; [assumption|]). exact H6.
Qed.

Lemma db_ok_insert_itinerary (name description route_data : str) (d : database) :
  db_ok d -> db_ok (fst (insert_itinerary name description route_data d)).
Proof.
  intros (H1 & H2 & H3 & H4 & H5 & H6). unfold db_ok, insert_itinerary.
  cbn [fst conversations seq_conversations documents seq_documents
       document_chunks seq_document_chunks itineraries seq_itineraries routes
       seq_routes].
  do 3 (split; [assumption|]). split; [now apply keys_ok_snoc|].
  split; assumption.
Qed.

Lemma db_ok_insert_route (name waypoints : str) (distance : float)
  (duration : str) (d : database) :
  db_ok d -> db_ok (fst (insert_route name waypoints distance duration d)).
Proof.
  intros (H1 & H2 & H3 & H4 & H5 & H6). unfold db_ok, insert_route.
  cbn [fst conversations seq_conversations documents seq_documents
       document_chunks seq_document_chunks itineraries seq_itineraries routes
       seq_routes].
  do 4 (split; [assumption|]). split; [now apply keys_ok_snoc | exact H6].
Qed.

Lemma db_ok_delete (id : Z) (d : database) :
  db_ok d -> db_ok (delete_document_row id (delete_chunks_of id d)).
Proof.
  intros (H1 & H2 & H3 & H4 & H5 & H6).
  unfold db_ok, delete_document_row, delete_chunks_of.
  cbn [conversations seq_conversations documents seq_documents document_chunks
       seq_document_chunks itineraries seq_itineraries routes seq_routes].
  split; [exact H1|]. split; [now apply keys_ok_filter|].
  split; [now apply keys_ok_filter|]. split; [exact H4|]. split; [exact H5|].
  rewrite Forall_forall in *. intros r Hr. apply filter_In in Hr.
  now apply H6.
Qed.

(** The connection's copy after the [documents] insert and the chunk loop. *)
Lemma db_ok_ingested (title content type : str) (source : option str)
  (chunks saved : list chunk) (d conn : database) :
  db_ok d ->
  save_chunks (seq_documents d + 1) chunks
    (fst (insert_document title content type source d)) = Return (saved, conn) ->
  db_ok conn.
Proof.
  intros (H1 & H2 & H3 & H4 & H5 & H6) Hs.
  destruct (save_chunks_frame _ _ _ _ _ Hs)
    as (rows & Hrows & Hseq & _ & Hnd & Hall & _ & E2 & E3 & E4 & E5 & E6 & E7
        & E8 & E9).
  cbn [insert_document fst destinations conversations seq_conversations
       documents seq_documents document_chunks seq_document_chunks itineraries
       seq_itineraries routes seq_routes] in *.
  unfold db_ok. rewrite E2, E3, E4, E5, E6, E7, E8, E9, Hrows.
  split; [exact H1|]. split; [now apply keys_ok_snoc|].
  split.
  { apply (keys_ok_app chk_id (seq_document_chunks d)); [exact H3 | exact Hnd | | lia].
    eapply Forall_impl; [|exact Hall]. cbn beta. intros r [Hr _]. exact Hr. }
  split; [exact H4|]. split; [exact H5|].
  apply Forall_app. split.
  - eapply Forall_impl; [|exact H6]. cbn beta. intros r [Hr Hv].
    split; [lia | exact Hv].
  - eapply Forall_impl; [|exact Hall]. cbn beta. intros r [_ [Hd Hv]].
    split; [lia | exact Hv].
Qed.

(* ================================================================== *)
(** * Itineraries and routes *)
(* ================================================================== *)

Section Generation.

Context {VS : Type}.
Variable services : Services VS.
Variable rag : RAGService VS.
Hypothesis Hrag : rag_service services = Some rag.
Variable json_dumps_preferences : Preferences -> str.
Variable json_dumps_list : list str -> str.

Lemma generate_itinerary_unfold (request : ItineraryRequest) (w : world VS) :
  generate_itinerary services json_dumps_preferences request w =
    let preferences :=
      {| pref_interests := it_interests request;
         pref_duration := it_duration request;
         pref_locations :=
           match it_locations request with
           | Some (l :: ls) => l :: ls
           | _ => []
           end |} in
    let w1 := log (RagGenerateItinerary preferences (it_language request)) w in
    match rag_generate_itinerary rag preferences (it_language request) (index w) with
    | Raise e =>
        (HTTPException 500 (py "Error generating itinerary: " ++ str_of_exn e), w1)
    | Return result =>
        match itr_itinerary result with
        | None =>
            (HTTPException 500
               (py "Error generating itinerary: " ++ py "'itinerary'"), w1)
        | Some itinerary =>
            (Ok {| itp_itinerary_id := seq_itineraries (db w) + 1;
                   itp_itinerary := itinerary;
                   itp_preferences := preferences;
                   itp_sources := get_or (itr_context_sources result) [] |},
             set_db (fst (insert_itinerary (py "Plan - " ++ it_duration request)
                            itinerary (json_dumps_preferences preferences)
                            (db w))) w1)
        end
    end.
Proof.
  unfold generate_itinerary. rewrite Hrag.
  unfold except_500, bind, emit, read_index, get_db_connection, lift, commit, ret.
  cbv zeta. cbn [index log db].
  destruct (rag_generate_itinerary rag _ _ (index w)) as [result|e];
    [|reflexivity].
  destruct (itr_itinerary result) as [itinerary|]; reflexivity.
Qed.

Lemma generate_route_unfold (request : RouteRequest) (w : world VS) :
  generate_route services json_dumps_list request w =
    let w1 := log (RagGenerateRoute (rt_start_location request)
                     (rt_end_location request) (rt_waypoints request)
                     (rt_language request)) w in
    match rag_generate_route rag (rt_start_location request)
            (rt_end_location request) (rt_waypoints request)
            (rt_language request) (index w) with
    | Raise e =>
        (HTTPException 500 (py "Error generating route: " ++ str_of_exn e), w1)
    | Return result =>
        let w2 :=
          set_db (fst (insert_route
                         (rt_start_location request ++ py " - "
                          ++ rt_end_location request)
                         (json_dumps_list (get_or (rt_waypoints request) []))
                         0.0%Q (py "N/A") (db w))) w1 in
        match
          (route <- getitem "route" (rtr_route result) ;;
           start_location <-
             getitem "start_location" (rtr_start_location result) ;;
           end_location <- getitem "end_location" (rtr_end_location result) ;;
           waypoints <- getitem "waypoints" (rtr_waypoints result) ;;
           Return {| rtp_route_id := seq_routes (db w) + 1;
                     rtp_route := route;
                     rtp_start_location := start_location;
                     rtp_end_location := end_location;
                     rtp_waypoints := waypoints;
                     rtp_sources := get_or (rtr_context_sources result) [] |})%R
        with
        | Return resp => (Ok resp, w2)
        | Raise e =>
            (HTTPException 500 (py "Error generating route: " ++ str_of_exn e), w2)
        end
    end.
Proof.
  unfold generate_route. rewrite Hrag.
  unfold except_500, bind, emit, read_index, get_db_connection, lift, commit, ret.
  cbv zeta. cbn [index log db].
  destruct (rag_generate_route rag _ _ _ _ (index w)) as [result|e];
    [|reflexivity].
  cbn [insert_route fst].
  destruct (rtr_route result); [|reflexivity].
  destruct (rtr_start_location result); [|reflexivity].
  destruct (rtr_end_location result); [|reflexivity].
  destruct (rtr_waypoints result); reflexivity.
Qed.

End Generation.

(** X8. [generate_itinerary] stores nothing unless it succeeds: whenever it
    raises (503, a failing RAG call, a result without the [itinerary] key)
    the database is as before.  When it succeeds, the [itineraries] table
    has gained one row, keyed by the id of the response, named
    ["Plan - {duration}"] and holding the very itinerary text that is
    returned. *)
Theorem generate_itinerary_stores_on_success {VS : Type}
  (services : Services VS) (json_dumps_preferences : Preferences -> str)
  (request : ItineraryRequest) (w : world VS) :
  match generate_itinerary services json_dumps_preferences request w with
  | (HTTPException _ _, w') => db w' = db w
  | (Ok resp, w') =>
      itineraries (db w') =
        itineraries (db w) ++
          [{| itin_id := itp_itinerary_id resp;
              itin_name := py "Plan - " ++ it_duration request;
              itin_description := itp_itinerary resp;
              itin_route_data := json_dumps_preferences (itp_preferences resp) |}]
      /\ itp_itinerary_id resp = seq_itineraries (db w) + 1
      /\ routes (db w') = routes (db w)
      /\ documents (db w') = documents (db w)
      /\ conversations (db w') = conversations (db w)
  end.
Proof.
  destruct (rag_service services) as [rag|] eqn:Hrag.
  - rewrite (generate_itinerary_unfold services rag Hrag). cbv zeta.
    destruct (rag_generate_itinerary rag _ _ (index w)) as [result|e];
      [|reflexivity].
    destruct (itr_itinerary result) as [itinerary|]; [|reflexivity].
    cbn. repeat split; reflexivity.
  - unfold generate_itinerary. rewrite Hrag. reflexivity.
Qed.



(* ================================================================== *)
(** * Every endpoint keeps the invariant *)
(* ================================================================== *)

Lemma db_ok_empty : db_ok Fixtures.empty_db.
Proof.
  unfold db_ok, keys_ok, Fixtures.empty_db; cbn.
  repeat split; constructor.
Qed.

Section Invariant.

Context {VS : Type}.
Variable lower : str -> str.
Variable ollama : str -> str -> post_outcome.
Variable services : Services VS.
Variable json_dumps_preferences : Preferences -> str.
Variable json_dumps_list : list str -> str.
Variable w : world VS.
Hypothesis Hok : db_ok (db w).

Lemma db_ok_chat_endpoint (chat : ChatMessage) :
  db_ok (db (snd (chat_endpoint lower ollama services chat w))).
Proof.
  rewrite chat_endpoint_unfold.
  destruct (chat_generate_returns lower ollama services chat w)
    as [text [t ->]].
  cbn [snd set_db db]. now apply db_ok_insert_conversation.
Qed.

Lemma db_ok_ingest_document (doc : DocumentIngestRequest) :
  db_ok (db (snd (ingest_document services doc w))).
Proof.
  destruct (document_processor services) as [dp|] eqn:Hdp.
  2:{ unfold ingest_document. rewrite Hdp. exact Hok. }
  destruct (vector_store services) as [vs|] eqn:Hvs.
  2:{ unfold ingest_document. rewrite Hdp, Hvs. exact Hok. }
  rewrite (ingest_document_unfold services dp vs doc w Hdp Hvs). cbv zeta.
  destruct (process_document dp _ _ _ _) as [chunks|e]; [|exact Hok].
  destruct (embed_chunks dp chunks) as [embedded|e]; [|exact Hok].
  destruct (save_chunks _ embedded _) as [[saved conn]|e] eqn:Es; [|exact Hok].
  apply db_ok_ingested in Es; [|exact Hok].
  destruct (add_documents vs saved _ (index w)) as [[[]|e] i']; exact Es.
Qed.

Lemma db_ok_delete_document (id : Z) :
  db_ok (db (snd (delete_document services id w))).
Proof.
  unfold delete_document.
  destruct (vector_store services) as [vs|]; [|exact Hok].
  unfold except_500, bind, on_index, get_db_connection, commit, ret, lift,
    bind_int.
  destruct (vs_delete_document vs id (index w)) as [[[]|e] i'];
    [|exact Hok].
  destruct (sqlite_int_ok id); cbn [snd set_db set_index db];
    [now apply db_ok_delete | exact Hok].
Qed.

Lemma db_ok_generate_itinerary (request : ItineraryRequest) :
  db_ok (db (snd (generate_itinerary services json_dumps_preferences request w))).
Proof.
  destruct (rag_service services) as [rag|] eqn:Hrag.
  2:{ unfold generate_itinerary. rewrite Hrag. exact Hok. }
  rewrite (generate_itinerary_unfold services rag Hrag). cbv zeta.
  destruct (rag_generate_itinerary rag _ _ (index w)) as [result|e];
    [|exact Hok].
  destruct (itr_itinerary result) as [itinerary|]; [|exact Hok].
  cbn [snd set_db db]. now apply db_ok_insert_itinerary.
Qed.

Lemma db_ok_generate_route (request : RouteRequest) :
  db_ok (db (snd (generate_route services json_dumps_list request w))).
Proof.
  destruct (rag_service services) as [rag|] eqn:Hrag.
  2:{ unfold generate_route. rewrite Hrag. exact Hok. }
  rewrite (generate_route_unfold services rag Hrag). cbv zeta.
  destruct (rag_generate_route rag _ _ _ _ (index w)) as [result|e];
    [|exact Hok].
  match goal with
  | |- context [match ?r with Return _ => _ | Raise _ => _ end] =>
      destruct r
  end; cbn [snd set_db db]; now apply db_ok_insert_route.
Qed.

End Invariant.

(** X10. The endpoints that write to the database keep its invariant, however
    they end: keys stay distinct and below their [AUTOINCREMENT] counters,
    and every chunk row names a document id that was handed out and carries
    the vector id made of its document id and chunk index.  (The other
    endpoints do not write.) *)
Theorem endpoints_keep_db_ok {VS : Type} (lower : str -> str)
  (ollama : str -> str -> post_outcome) (services : Services VS)
  (json_dumps_preferences : Preferences -> str)
  (json_dumps_list : list str -> str) (w : world VS) :
  db_ok (db w) ->
  (forall chat, db_ok (db (snd (chat_endpoint lower ollama services chat w)))) /\
  (forall doc, db_ok (db (snd (ingest_document services doc w)))) /\
  (forall id, db_ok (db (snd (delete_document services id w)))) /\
  (forall request,
      db_ok (db (snd (generate_itinerary services json_dumps_preferences
                        request w)))) /\
  (forall request,
      db_ok (db (snd (generate_route services json_dumps_list request w)))).
Proof.
  intros Hok. split; [|split; [|split; [|split]]].
  - intros chat. now apply db_ok_chat_endpoint.
  - intros doc. now apply db_ok_ingest_document.
  - intros id. now apply db_ok_delete_document.
  - intros request. now apply db_ok_generate_itinerary.
  - intros request. now apply db_ok_generate_route.
Qed.

Lemma endpoints_keep_db_ok_witness :
  db_ok (db Fixtures.after_guide).
Proof.
  exact (proj1 (proj2 (endpoints_keep_db_ok lower_latin Fixtures.ollama_down
                         Fixtures.all_up Fixtures.no_json_p Fixtures.no_json_l
                         (Fixtures.fresh []) db_ok_empty))
           Fixtures.guide).
Defined.

(** X11. In a database that satisfies the invariant the vector id is a join
    key: two chunk rows with the same vector id belong to the same document
    and have the same chunk index. *)
Theorem vector_id_is_join_key (d : database) (r1 r2 : chunk_row) :
  db_ok d ->
  In r1 (document_chunks d) -> In r2 (document_chunks d) ->
  chk_vector_id r1 = chk_vector_id r2 ->
  chk_document_id r1 = chk_document_id r2 /\
  chk_chunk_index r1 = chk_chunk_index r2.
Proof.
  intros (_ & _ & _ & _ & _ & H) H1 H2 Heq.
  rewrite Forall_forall in H.
  destruct (H r1 H1) as [_ E1], (H r2 H2) as [_ E2].
  rewrite E1, E2 in Heq. now apply vector_id_of_inj.
Qed.

(** Two rows of one table with one vector id: the processor gave both
    chunks the index 0. *)
Lemma vector_id_is_join_key_witness :
  let r1 := {| chk_id := 1; chk_document_id := 1; chk_chunk_text := py "Harran";
               chk_chunk_index := 0; chk_vector_id := py "1_0" |} in
  let r2 := {| chk_id := 2; chk_document_id := 1; chk_chunk_text := py "Urfa";
               chk_chunk_index := 0; chk_vector_id := py "1_0" |} in
  document_chunks (db Fixtures.after_repeating) = [r1; r2] /\
  r1 <> r2 /\
  chk_document_id r1 = chk_document_id r2 /\
  chk_chunk_index r1 = chk_chunk_index r2.
Proof.
  intros r1 r2.
  assert (Hok : db_ok (db Fixtures.after_repeating))
    by (apply db_ok_ingest_document, db_ok_empty).
  assert (Hrows : document_chunks (db Fixtures.after_repeating) = [r1; r2])
    by (vm_compute; reflexivity).
  split; [exact Hrows|]. split; [intros H; discriminate (f_equal chk_id H)|].
  apply (vector_id_is_join_key (db Fixtures.after_repeating) r1 r2 Hok).
  - rewrite Hrows. left. reflexivity.
  - rewrite Hrows. right. left. reflexivity.
  - reflexivity.
Defined.

(* ================================================================== *)
(** * Ingesting and then deleting *)
(* ================================================================== *)

Lemma filter_app_out {A : Type} (f : A -> bool) (l new : list A) :
  (forall r, In r l -> f r = true) ->
  (forall r, In r new -> f r = false) ->
  filter f (l ++ new) = l.
Proof.
  intros Hl Hnew. rewrite filter_app.
  assert (E1 : filter f l = l).
  { induction l as [|a l IH]; [reflexivity|]. cbn [filter].
    rewrite (Hl a (or_introl eq_refl)). f_equal. apply IH.
    intros r Hr. apply Hl. now right. }
  assert (E2 : filter f new = []).
  { induction new as [|a new IH]; [reflexivity|]. cbn [filter].
    rewrite (Hnew a (or_introl eq_refl)). apply IH.
    intros r Hr. apply Hnew. now right. }
  now rewrite E1, E2, List.app_nil_r.
Qed.

(** A successful ingestion, seen from the tables. *)
Lemma ingest_document_ok_rows {VS : Type} (services : Services VS)
  (doc : DocumentIngestRequest) (w w' : world VS)
  (resp : DocumentIngestResponse) :
  ingest_document services doc w = (Ok resp, w') ->
  ir_document_id resp = seq_documents (db w) + 1 /\
  seq_documents (db w') = seq_documents (db w) + 1 /\
  documents (db w') =
    documents (db w) ++
      [{| doc_id := seq_documents (db w) + 1; doc_title := ing_title doc;
          doc_content := ing_content doc; doc_type := ing_type doc;
          doc_source := ing_source doc |}] /\
  (exists rows,
      document_chunks (db w') = document_chunks (db w) ++ rows /\
      Forall (fun r => chk_document_id r = seq_documents (db w) + 1) rows /\
      ir_chunks_created resp = Z.of_nat (List.length rows) /\
      seq_document_chunks (db w')
      = seq_document_chunks (db w) + Z.of_nat (List.length rows)) /\
  destinations (db w') = destinations (db w) /\
  conversations (db w') = conversations (db w) /\
  seq_conversations (db w') = seq_conversations (db w) /\
  itineraries (db w') = itineraries (db w) /\
  seq_itineraries (db w') = seq_itineraries (db w) /\
  routes (db w') = routes (db w) /\
  seq_routes (db w') = seq_routes (db w).
Proof.
  intros H. unfold ingest_document in H.
  destruct (document_processor services) as [dp|] eqn:Hdp; [|discriminate].
  destruct (vector_store services) as [vs|] eqn:Hvs; [|discriminate].
  pose proof (ingest_document_unfold services dp vs doc w Hdp Hvs) as U.
  unfold ingest_document in U. rewrite Hdp, Hvs in U. rewrite U in H. clear U.
  cbv zeta in H.
  destruct (process_document dp _ _ _ _) as [chunks|e]; [|discriminate].
  destruct (embed_chunks dp chunks) as [embedded|e]; [|discriminate].
  destruct (save_chunks _ embedded _) as [[saved conn]|e] eqn:Es; [|discriminate].
  destruct (add_documents vs saved _ (index w)) as [[[]|e] i']; [|discriminate].
  injection H as <- <-.
  destruct (save_chunks_frame _ _ _ _ _ Es)
    as (rows & Hrows & Hseq & Hlen & _ & Hall & H1 & H2 & H3 & H4 & H5 & H6
        & H7 & H8 & H9).
  destruct (save_chunks_spec _ _ _ _ _ Es) as (_ & _ & _ & _ & Hsaved & _).
  cbn [insert_document fst documents seq_documents document_chunks
       seq_document_chunks destinations conversations seq_conversations
       itineraries seq_itineraries routes seq_routes] in *.
  cbn [db ir_document_id ir_chunks_created].
  split; [reflexivity|]. split; [exact H5|]. split; [exact H4|].
  split.
  { exists rows. split; [exact Hrows|]. split.
    - eapply Forall_impl; [|exact Hall]. cbn beta. intros r [_ [Hr _]]. exact Hr.
    - split; [now rewrite Hlen, Hsaved | exact Hseq]. }
  repeat split; assumption.
Qed.

(** X12. Deleting a document that has just been ingested undoes the
    ingestion in the relational tables: [documents] and [document_chunks]
    hold what they held before, no earlier row being touched, and every
    other table is as before.  Only two counters remember the document: the
    [documents] counter has advanced by one (to the document's id, which is
    therefore not handed out again) and the [document_chunks] counter by the
    number of chunks created; the other counters are as before.  The id has
    to be one that SQLite can bind. *)
Theorem ingest_then_delete {VS : Type} (services : Services VS)
  (vs : VectorStore VS) (doc : DocumentIngestRequest) (w w1 : world VS)
  (resp : DocumentIngestResponse) (i2 : VS) :
  db_ok (db w) ->
  vector_store services = Some vs ->
  ingest_document services doc w = (Ok resp, w1) ->
  sqlite_int_ok (ir_document_id resp) = true ->
  vs_delete_document vs (ir_document_id resp) (index w1) = (Return tt, i2) ->
  let w2 := snd (delete_document services (ir_document_id resp) w1) in
  documents (db w2) = documents (db w) /\
  document_chunks (db w2) = document_chunks (db w) /\
  seq_documents (db w2) = seq_documents (db w) + 1 /\
  seq_documents (db w2) = ir_document_id resp /\
  seq_document_chunks (db w2)
  = seq_document_chunks (db w) + ir_chunks_created resp /\
  destinations (db w2) = destinations (db w) /\
  conversations (db w2) = conversations (db w) /\
  seq_conversations (db w2) = seq_conversations (db w) /\
  itineraries (db w2) = itineraries (db w) /\
  seq_itineraries (db w2) = seq_itineraries (db w) /\
  routes (db w2) = routes (db w) /\
  seq_routes (db w2) = seq_routes (db w).
Proof.
  intros Hok Hvs Hing Hid Hdel w2. subst w2.
  rewrite (delete_document_returns services vs _ w1 i2 Hvs Hdel Hid).
  cbn [snd db delete_document_row delete_chunks_of documents document_chunks
       seq_documents seq_document_chunks destinations conversations
       seq_conversations itineraries seq_itineraries routes seq_routes].
  destruct (ingest_document_ok_rows services doc w w1 resp Hing)
    as (Hrid & Hseq & Hdocs & (rows & Hrows & Hall & Hcount & Hcseq)
        & H1 & H2 & H3 & H4 & H5 & H6 & H7).
  rewrite Hrid in *.
  destruct Hok as (_ & [_ Hdle] & _ & _ & _ & Hchk).
  rewrite Forall_forall in Hdle, Hchk, Hall.
  rewrite Hdocs, Hrows. split; [|split].
  - apply filter_app_out.
    + intros r Hr. specialize (Hdle r Hr). apply negb_true_iff, Z.eqb_neq. lia.
    + intros r [<-|[]]. cbn [doc_id]. apply negb_false_iff, Z.eqb_refl.
  - apply filter_app_out.
    + intros r Hr. destruct (Hchk r Hr) as [Hle _].
      apply negb_true_iff, Z.eqb_neq. lia.
    + intros r Hr. rewrite (Hall r Hr). apply negb_false_iff, Z.eqb_refl.
  - split; [exact Hseq|]. split; [exact Hseq|].
    split; [now rewrite Hcseq, Hcount|].
    repeat split; assumption.
Qed.

Lemma ingest_then_delete_witness :
  documents
    (db (snd (delete_document Fixtures.all_up 1 Fixtures.after_guide))) = [] /\
  document_chunks
    (db (snd (delete_document Fixtures.all_up 1 Fixtures.after_guide))) = [] /\
  seq_document_chunks
    (db (snd (delete_document Fixtures.all_up 1 Fixtures.after_guide))) = 1.
Proof.
  destruct (ingest_then_delete Fixtures.all_up
              (VectorIndex.store Fixtures.closeness) Fixtures.guide
              (@Fixtures.fresh VectorIndex.state []) Fixtures.after_guide _ _
              db_ok_empty eq_refl (surjective_pairing _) eq_refl eq_refl)
    as [H1 [H2 [_ [_ [H3 _]]]]].
  split; [exact H1|]. split; [exact H2|].
  etransitivity; [exact H3 | vm_compute; reflexivity].
Defined.

(* ================================================================== *)
(** * The services after start-up *)
(* ================================================================== *)

Lemma except_500_not_503 {VS A : Type} (prefix : str) (body : M VS A)
  (w : world VS) (detail : str) :
  fst (except_500 prefix body w) <> HTTPException 503 detail.
Proof.
  unfold except_500. destruct (body w) as [[a|e] w']; cbn [fst]; discriminate.
Qed.

(** X13. The globals as [init_db] leaves them.  The RAG service exists only if
    both the vector store and the document processor exist.  The vector
    store object is kept when it reports that it is not connected, and is
    dropped when its constructor, [is_connected] or [ensure_collection]
    raises; if it is dropped there is no RAG service. *)
Theorem init_services_dependencies {VS : Type} (env : Startup VS) :
  (rag_service (init_services env) <> None ->
   vector_store (init_services env) <> None /\
   document_processor (init_services env) <> None) /\
  (forall vs,
      new_VectorStore env = Return vs -> is_connected env vs = Return false ->
      vector_store (init_services env) = Some vs) /\
  (forall vs e,
      new_VectorStore env = Return vs ->
      is_connected env vs = Raise e \/
      (is_connected env vs = Return true /\
       ensure_collection env vs 384 = Raise e) ->
      vector_store (init_services env) = None /\
      rag_service (init_services env) = None).
Proof.
  unfold init_services. cbn [rag_service vector_store document_processor].
  split; [|split].
  - destruct (init_vector_store env); [|congruence].
    destruct (init_document_processor env); [|congruence].
    intros _. split; discriminate.
  - intros vs Hnew Hconn. unfold init_vector_store.
    now rewrite Hnew; cbn [bind_result]; rewrite Hconn.
  - intros vs e Hnew H.
    assert (E : init_vector_store env = None).
    { unfold init_vector_store. rewrite Hnew. cbn [bind_result].
      destruct H as [H|[H1 H2]].
      - now rewrite H.
      - rewrite H1. cbn [bind_result]. now rewrite H2. }
    rewrite E. split; reflexivity.
Qed.

Lemma init_services_dependencies_witness :
  vector_store (init_services Fixtures.startup_not_connected)
  = Some Fixtures.unreachable_store.
Proof.
  exact (proj1 (proj2 (init_services_dependencies
                         Fixtures.startup_not_connected))
           Fixtures.unreachable_store eq_refl eq_refl).
Defined.

(** X14. With the services as [init_db] leaves them, the document endpoints are
    at least as available as the RAG endpoints: if [generate_itinerary] does
    not answer 503, then neither [ingest_document] nor [search_documents]
    nor [delete_document] answers 503. *)
Theorem rag_available_implies_documents_available {VS : Type}
  (env : Startup VS) (json_dumps_preferences : Preferences -> str)
  (request : ItineraryRequest) (w : world VS) :
  (forall detail,
      fst (generate_itinerary (init_services env) json_dumps_preferences
             request w) <> HTTPException 503 detail) ->
  forall (w' : world VS) (detail : str),
    (forall doc,
        fst (ingest_document (init_services env) doc w')
        <> HTTPException 503 detail) /\
    (forall rq,
        fst (search_documents (init_services env) rq w')
        <> HTTPException 503 detail) /\
    (forall id,
        fst (delete_document (init_services env) id w')
        <> HTTPException 503 detail).
Proof.
  intros H w' detail.
  assert (Hrag : rag_service (init_services env) <> None).
  { intros Hnone. unfold generate_itinerary in H. rewrite Hnone in H.
    now apply (H (py "RAG service unavailable")). }
  unfold init_services in *.
  cbn [rag_service vector_store document_processor] in *.
  destruct (init_vector_store env) as [vs|]; [|congruence].
  destruct (init_document_processor env) as [dp|]; [|congruence].
  split; [|split].
  - intros doc. unfold ingest_document.
    cbn [vector_store document_processor]. apply except_500_not_503.
  - intros rq. unfold search_documents.
    cbn [vector_store document_processor]. apply except_500_not_503.
  - intros id. unfold delete_document. cbn [vector_store].
    apply except_500_not_503.
Qed.

Lemma rag_available_implies_documents_available_witness :
  fst (delete_document (init_services Fixtures.startup_not_connected) 1
         (Fixtures.fresh tt))
  <> HTTPException 503 (py "Vector store unavailable").
Proof.
  refine (proj2 (proj2 (rag_available_implies_documents_available
                          Fixtures.startup_not_connected Fixtures.no_json_p
                          Fixtures.three_days (Fixtures.fresh tt) _
                          (Fixtures.fresh tt) (py "Vector store unavailable")))
            1).
  intros detail H. vm_compute in H. discriminate.
Defined.

(* ================================================================== *)
(** * The chat endpoint with the RAG service *)
(* ================================================================== *)


